(** * Interview-coach backend: authentication and resource ownership

    A shallow embedding of the Python sources under [src/authentication]
    ([models.py], [services/user_service.py], [services/storage_service.py],
    [auth.py], [main.py]) together with the properties of the specification
    that are checked against them.

    The MongoDB collections behind the Beanie [Document] classes are lists
    of documents in natural (insertion) order; every coroutine is a
    computation in a state-and-exception monad over the [World] (the five
    collections, the blob store and the failures of the environment). *)

From stdpp Require Import base numbers strings pretty option gmap list.

Local Open Scope string_scope.
Local Open Scope Z_scope.
Local Open Scope list_scope.

(** ** Basic data *)

(** [PydanticObjectId]: a 12-byte identifier. *)
Definition ObjectId := N.
Bind Scope N_scope with ObjectId.
(** [datetime]: seconds on the UTC clock. *)
Definition datetime := Z.

(** Python values that flow through untyped dictionaries (request bodies,
    [**kwargs], [preferences_data]). *)
Inductive value :=
| VNone
| VBool (b : bool)
| VInt (z : Z)
| VStr (s : string)
| VOid (o : ObjectId)
| VTime (t : datetime)
| VStrs (l : list string)
| VDict (d : list (string * string)).

#[global] Instance value_eq_dec : EqDecision value.
Proof. solve_decision. Defined.

(** Exceptions raised by the code or by its collaborators. *)
Inductive exn :=
| HTTPException (status_code : Z) (detail : string)
| OSError
| ClientError
| PyMongoError
| DuplicateKeyError
| TypeError
| ValidationError
| AttributeError
| UserAlreadyExists.

#[global] Instance exn_eq_dec : EqDecision exn.
Proof. solve_decision. Defined.

(** [str(e)] as used for the [detail] of a re-raised [HTTPException];
    an exception that carries no message here is rendered by its class. *)
Definition exn_str (e : exn) : string :=
  match e with
  | HTTPException c d => pretty c +:+ ": " +:+ d
  | OSError => "OSError"
  | ClientError => "ClientError"
  | PyMongoError => "PyMongoError"
  | DuplicateKeyError => "DuplicateKeyError"
  | TypeError => "TypeError"
  | ValidationError => "ValidationError"
  | AttributeError => "AttributeError"
  | UserAlreadyExists => ""
  end.

Inductive result (A : Type) :=
| Return (a : A)
| Raise (e : exn).
Arguments Return {A} a.
Arguments Raise {A} e.

(** ** Documents ([models.py])

    An open dictionary field ([Optional[Dict[str, Any]]]) is kept as an
    optional list of key-value pairs. *)

Module UserDB.
Record t := mk {
  id : ObjectId;
  email : string;
  hashed_password : string;
  is_active : bool;
  is_superuser : bool;
  is_verified : bool;
  full_name : option string;
  google_id : option string;
  avatar_url : option string;
  role : string;
  created_at : datetime;
  updated_at : datetime
}.
End UserDB.

Module UserSession.
Record t := mk {
  id : ObjectId;
  user_id : ObjectId;
  session_name : string;
  session_type : string;
  status : string;
  created_at : datetime;
  updated_at : datetime;
  metadata : option (list (string * string))
}.

#[global] Instance eq_dec : EqDecision t.
Proof. solve_decision. Defined.
End UserSession.

Module MediaFile.
Record t := mk {
  id : ObjectId;
  user_id : ObjectId;
  session_id : option ObjectId;
  file_type : string;
  file_path : string;
  file_size : option Z;
  duration : option Z;
  mime_type : option string;
  created_at : datetime;
  processing_status : string;
  ai_analysis : option (list (string * string))
}.
End MediaFile.

Module LLMConversation.
Record t := mk {
  id : ObjectId;
  user_id : ObjectId;
  session_id : option ObjectId;
  conversation_type : string;
  user_message : option string;
  llm_response : option string;
  llm_model : option string;
  context_data : option (list (string * string));
  response_metadata : option (list (string * string));
  created_at : datetime
}.
End LLMConversation.

(** [UserPreferences] is the one document whose attributes are assigned by
    name from a dictionary ([setattr] in [update_user_preferences]); Python
    checks no type there, so its fields hold dynamic values. *)
Module UserPreferences.
Record t := mk {
  id : value;
  user_id : value;
  preferred_duration : value;
  difficulty_level : value;
  interview_types : value;
  email_notifications : value;
  reminder_notifications : value;
  data_retention_days : value;
  allow_data_analysis : value;
  preferences_data : value;
  created_at : value;
  updated_at : value
}.

(** The declared defaults of the class, for a given id, owner and clock. *)
Definition default (i : ObjectId) (u : ObjectId) (now : datetime) : t :=
  {| id := VOid i; user_id := VOid u;
     preferred_duration := VInt 30;
     difficulty_level := VStr "medium";
     interview_types := VStrs ["technical"; "behavioral"];
     email_notifications := VBool true;
     reminder_notifications := VBool true;
     data_retention_days := VInt 30;
     allow_data_analysis := VBool true;
     preferences_data := VNone;
     created_at := VTime now; updated_at := VTime now |}.

(** The field names, i.e. the keys for which [hasattr] holds. *)
Definition fields : list string :=
  ["id"; "user_id"; "preferred_duration"; "difficulty_level";
   "interview_types"; "email_notifications"; "reminder_notifications";
   "data_retention_days"; "allow_data_analysis"; "preferences_data";
   "created_at"; "updated_at"].

Definition hasattr (key : string) : bool := bool_decide (key ∈ fields).

(** [setattr(p, key, v)]: plain assignment, no validation. *)
Definition setattr (p : t) (key : string) (v : value) : t :=
  if decide (key = "id") then
    mk v (user_id p) (preferred_duration p) (difficulty_level p) (interview_types p) (email_notifications p) (reminder_notifications p) (data_retention_days p) (allow_data_analysis p) (preferences_data p) (created_at p) (updated_at p)
  else if decide (key = "user_id") then
    mk (id p) v (preferred_duration p) (difficulty_level p) (interview_types p) (email_notifications p) (reminder_notifications p) (data_retention_days p) (allow_data_analysis p) (preferences_data p) (created_at p) (updated_at p)
  else if decide (key = "preferred_duration") then
    mk (id p) (user_id p) v (difficulty_level p) (interview_types p) (email_notifications p) (reminder_notifications p) (data_retention_days p) (allow_data_analysis p) (preferences_data p) (created_at p) (updated_at p)
  else if decide (key = "difficulty_level") then
    mk (id p) (user_id p) (preferred_duration p) v (interview_types p) (email_notifications p) (reminder_notifications p) (data_retention_days p) (allow_data_analysis p) (preferences_data p) (created_at p) (updated_at p)
  else if decide (key = "interview_types") then
    mk (id p) (user_id p) (preferred_duration p) (difficulty_level p) v (email_notifications p) (reminder_notifications p) (data_retention_days p) (allow_data_analysis p) (preferences_data p) (created_at p) (updated_at p)
  else if decide (key = "email_notifications") then
    mk (id p) (user_id p) (preferred_duration p) (difficulty_level p) (interview_types p) v (reminder_notifications p) (data_retention_days p) (allow_data_analysis p) (preferences_data p) (created_at p) (updated_at p)
  else if decide (key = "reminder_notifications") then
    mk (id p) (user_id p) (preferred_duration p) (difficulty_level p) (interview_types p) (email_notifications p) v (data_retention_days p) (allow_data_analysis p) (preferences_data p) (created_at p) (updated_at p)
  else if decide (key = "data_retention_days") then
    mk (id p) (user_id p) (preferred_duration p) (difficulty_level p) (interview_types p) (email_notifications p) (reminder_notifications p) v (allow_data_analysis p) (preferences_data p) (created_at p) (updated_at p)
  else if decide (key = "allow_data_analysis") then
    mk (id p) (user_id p) (preferred_duration p) (difficulty_level p) (interview_types p) (email_notifications p) (reminder_notifications p) (data_retention_days p) v (preferences_data p) (created_at p) (updated_at p)
  else if decide (key = "preferences_data") then
    mk (id p) (user_id p) (preferred_duration p) (difficulty_level p) (interview_types p) (email_notifications p) (reminder_notifications p) (data_retention_days p) (allow_data_analysis p) v (created_at p) (updated_at p)
  else if decide (key = "created_at") then
    mk (id p) (user_id p) (preferred_duration p) (difficulty_level p) (interview_types p) (email_notifications p) (reminder_notifications p) (data_retention_days p) (allow_data_analysis p) (preferences_data p) v (updated_at p)
  else if decide (key = "updated_at") then
    mk (id p) (user_id p) (preferred_duration p) (difficulty_level p) (interview_types p) (email_notifications p) (reminder_notifications p) (data_retention_days p) (allow_data_analysis p) (preferences_data p) (created_at p) v
  else p.
End UserPreferences.

(** ** The world: collections, blob store, environment failures *)

(** The failures of the environment that the code handles (or fails to):
    each flag makes the named external call raise. *)
Record Faults := {
  prefs_find_fails : bool;     (* UserPreferences.find_one *)
  prefs_insert_fails : bool;   (* UserPreferences(...).insert *)
  blob_delete_fails : bool;    (* os.remove / s3 delete_object *)
  media_delete_fails : bool    (* MediaFile.delete *)
}.

Definition no_faults : Faults :=
  {| prefs_find_fails := false; prefs_insert_fails := false;
     blob_delete_fails := false; media_delete_fails := false |}.

Record World := {
  users : list UserDB.t;
  user_sessions : list UserSession.t;
  media_files : list MediaFile.t;
  llm_conversations : list LLMConversation.t;
  user_preferences : list UserPreferences.t;
  blobs : gset string;
  faults : Faults
}.

Definition empty_world : World :=
  {| users := []; user_sessions := []; media_files := [];
     llm_conversations := []; user_preferences := [];
     blobs := ∅; faults := no_faults |}.

Definition set_users (f : list UserDB.t → list UserDB.t) (w : World) : World :=
  {| users := f (users w); user_sessions := user_sessions w;
     media_files := media_files w; llm_conversations := llm_conversations w;
     user_preferences := user_preferences w; blobs := blobs w; faults := faults w |}.

Definition set_user_sessions (f : list UserSession.t → list UserSession.t) (w : World) : World :=
  {| users := users w; user_sessions := f (user_sessions w);
     media_files := media_files w; llm_conversations := llm_conversations w;
     user_preferences := user_preferences w; blobs := blobs w; faults := faults w |}.

Definition set_media_files (f : list MediaFile.t → list MediaFile.t) (w : World) : World :=
  {| users := users w; user_sessions := user_sessions w;
     media_files := f (media_files w); llm_conversations := llm_conversations w;
     user_preferences := user_preferences w; blobs := blobs w; faults := faults w |}.

Definition set_user_preferences (f : list UserPreferences.t → list UserPreferences.t) (w : World) : World :=
  {| users := users w; user_sessions := user_sessions w;
     media_files := media_files w; llm_conversations := llm_conversations w;
     user_preferences := f (user_preferences w); blobs := blobs w; faults := faults w |}.

Definition set_blobs (f : gset string → gset string) (w : World) : World :=
  {| users := users w; user_sessions := user_sessions w;
     media_files := media_files w; llm_conversations := llm_conversations w;
     user_preferences := user_preferences w; blobs := f (blobs w); faults := faults w |}.

Definition set_faults (fl : Faults) (w : World) : World :=
  {| users := users w; user_sessions := user_sessions w;
     media_files := media_files w; llm_conversations := llm_conversations w;
     user_preferences := user_preferences w; blobs := blobs w; faults := fl |}.

(** ** The monad of coroutines: state and exceptions *)

Definition M (A : Type) : Type := World → result A * World.

Definition ret {A} (a : A) : M A := λ w, (Return a, w).
Definition raise {A} (e : exn) : M A := λ w, (Raise e, w).
Definition bind {A B} (m : M A) (k : A → M B) : M B :=
  λ w, match m w with
       | (Return a, w') => k a w'
       | (Raise e, w') => (Raise e, w')
       end.
(** [try: m except E: h], where [handles e] tells whether [e] is an [E]. *)
Definition try_except {A} (m : M A) (handles : exn → bool) (h : exn → M A) : M A :=
  λ w, match m w with
       | (Return a, w') => (Return a, w')
       | (Raise e, w') => if handles e then h e w' else (Raise e, w')
       end.
Definition gets {A} (f : World → A) : M A := λ w, (Return (f w), w).
Definition modify (f : World → World) : M unit := λ w, (Return tt, f w).

Declare Scope coro_scope.
Delimit Scope coro_scope with coro.
Notation "'await' x <- m ;; k" := (bind m (λ x, k))
  (at level 100, x name, m at next level, k at level 200, right associativity) : coro_scope.
Notation "'await_' m ;; k" := (bind m (λ _, k))
  (at level 100, m at next level, k at level 200, right associativity) : coro_scope.
Local Open Scope coro_scope.

(** [except Exception] catches everything that is modelled. *)
Definition Exception (e : exn) : bool := true.
Definition is_OSError (e : exn) : bool := bool_decide (e = OSError).
Definition is_ClientError (e : exn) : bool := bool_decide (e = ClientError).

(** ** Collection operations (Beanie / MongoDB) *)

Section Collection.
Context {K A : Type} `{EqDecision K} (doc_id : A → K).

(** [find_one(cond)]: the first document, in natural order, that
    satisfies the condition. *)
Definition find_one (P : A → Prop) `{∀ x, Decision (P x)} (c : list A) : option A :=
  snd <$> list_find P c.

(** [find(cond).to_list()]: no sort stage is added. *)
Definition find (P : A → Prop) `{∀ x, Decision (P x)} (c : list A) : list A :=
  filter P c.

(** [Doc.get(id)]. *)
Definition get (k : K) (c : list A) : option A :=
  find_one (λ d, doc_id d = k) c.

(** [doc.insert()]: MongoDB refuses a second document with the same
    [_id]. *)
Definition insert (d : A) (c : list A) : option (list A) :=
  if decide (Exists (λ d', doc_id d' = doc_id d) c) then None
  else Some (c ++ [d]).

(** Replace the first document whose [_id] is that of [d]. *)
Fixpoint replace_one (d : A) (c : list A) : list A :=
  match c with
  | [] => []
  | d' :: c' => if decide (doc_id d' = doc_id d) then d :: c'
                else d' :: replace_one d c'
  end.

(** [doc.save()]: an upsert on [_id]. *)
Definition save (d : A) (c : list A) : list A :=
  if decide (Exists (λ d', doc_id d' = doc_id d) c) then replace_one d c
  else c ++ [d].

(** [doc.delete()]: [delete_one({_id: doc.id})]. *)
Fixpoint delete_one (k : K) (c : list A) : list A :=
  match c with
  | [] => []
  | d' :: c' => if decide (doc_id d' = k) then c' else d' :: delete_one k c'
  end.

(** MongoDB's guarantee on every collection: [_id] is unique. *)
Definition unique_ids (c : list A) : Prop := NoDup (doc_id <$> c).
End Collection.

(** The collections as the coroutines see them.  Only the calls whose
    failure the code handles, or is claimed to handle, consult [faults];
    the other store calls succeed. *)
Module Beanie.
Definition UserDB_find_one (P : UserDB.t → Prop) `{∀ x, Decision (P x)}
  : M (option UserDB.t) :=
  gets (λ w, find_one P (users w)).

Definition UserDB_insert (u : UserDB.t) : M unit :=
  λ w, match insert UserDB.id u (users w) with
       | Some c => (Return tt, set_users (λ _, c) w)
       | None => (Raise DuplicateKeyError, w)
       end.

Definition UserDB_save (u : UserDB.t) : M unit :=
  modify (set_users (save UserDB.id u)).

Definition UserSession_find_one (P : UserSession.t → Prop) `{∀ x, Decision (P x)}
  : M (option UserSession.t) :=
  gets (λ w, find_one P (user_sessions w)).

Definition UserSession_find (P : UserSession.t → Prop) `{∀ x, Decision (P x)}
  : M (list UserSession.t) :=
  gets (λ w, find P (user_sessions w)).

Definition UserSession_get (i : ObjectId) : M (option UserSession.t) :=
  gets (λ w, get UserSession.id i (user_sessions w)).

Definition UserSession_insert (s : UserSession.t) : M unit :=
  λ w, match insert UserSession.id s (user_sessions w) with
       | Some c => (Return tt, set_user_sessions (λ _, c) w)
       | None => (Raise DuplicateKeyError, w)
       end.

Definition MediaFile_find_one (P : MediaFile.t → Prop) `{∀ x, Decision (P x)}
  : M (option MediaFile.t) :=
  gets (λ w, find_one P (media_files w)).

Definition MediaFile_find (P : MediaFile.t → Prop) `{∀ x, Decision (P x)}
  : M (list MediaFile.t) :=
  gets (λ w, find P (media_files w)).

Definition MediaFile_get (i : ObjectId) : M (option MediaFile.t) :=
  gets (λ w, get MediaFile.id i (media_files w)).

Definition MediaFile_delete (f : MediaFile.t) : M unit :=
  λ w, if media_delete_fails (faults w) then (Raise PyMongoError, w)
       else (Return tt, set_media_files (delete_one MediaFile.id (MediaFile.id f)) w).

Definition LLMConversation_find_one (P : LLMConversation.t → Prop) `{∀ x, Decision (P x)}
  : M (option LLMConversation.t) :=
  gets (λ w, find_one P (llm_conversations w)).

Definition UserPreferences_find_one (P : UserPreferences.t → Prop) `{∀ x, Decision (P x)}
  : M (option UserPreferences.t) :=
  λ w, if prefs_find_fails (faults w) then (Raise PyMongoError, w)
       else (Return (find_one P (user_preferences w)), w).

Definition UserPreferences_insert (p : UserPreferences.t) : M unit :=
  λ w, if prefs_insert_fails (faults w) then (Raise PyMongoError, w)
       else match insert UserPreferences.id p (user_preferences w) with
            | Some c => (Return tt, set_user_preferences (λ _, c) w)
            | None => (Raise DuplicateKeyError, w)
            end.

Definition UserPreferences_save (p : UserPreferences.t) : M unit :=
  modify (set_user_preferences (save UserPreferences.id p)).
End Beanie.
Import Beanie.

(** ** [services/user_service.py] *)

Module UserService.
Section WithPydantic.
(** Pydantic's validation of a keyword argument of the [UserPreferences]
    constructor (field name, given value): the coerced value, or [None]
    for a [ValidationError].  Its rules are not part of the repository. *)
Variable validate : string → value → option value.

Definition get_user_sessions (user_id : ObjectId) : M (list UserSession.t) :=
  UserSession_find (λ s, UserSession.user_id s = user_id).

Definition get_user_media_files (user_id : ObjectId) (session_id : option ObjectId)
  : M (list MediaFile.t) :=
  match session_id with
  | Some sid =>
      MediaFile_find (λ f, MediaFile.user_id f = user_id ∧ MediaFile.session_id f = Some sid)
  | None => MediaFile_find (λ f, MediaFile.user_id f = user_id)
  end.

(** [new_id] and [now] are what the [default_factory] of [id] and of the
    two timestamps draw during the call; [session_data] is the dictionary
    of the request. *)
Definition create_user_session (new_id : ObjectId) (now : datetime)
    (user_id : ObjectId) (session_data : gmap string value) : M UserSession.t :=
  match session_data !! "session_name", session_data !! "session_type" with
  | Some (VStr name), Some (VStr type) =>
      let mk_session md :=
        UserSession.mk new_id user_id name type "active" now now md in
      match session_data !! "metadata" with
      | None | Some VNone =>
          await_ UserSession_insert (mk_session None) ;; ret (mk_session None)
      | Some (VDict d) =>
          await_ UserSession_insert (mk_session (Some d)) ;; ret (mk_session (Some d))
      | Some _ => raise ValidationError
      end
  | _, _ => raise ValidationError
  end.

Definition get_session_by_id (session_id : ObjectId) : M (option UserSession.t) :=
  UserSession_get session_id.

Definition user_owns_resource (user_id resource_id : ObjectId) (resource_type : string)
  : M bool :=
  if decide (resource_type = "session") then
    await resource <- UserSession_find_one
      (λ s, UserSession.id s = resource_id ∧ UserSession.user_id s = user_id) ;;
    ret (bool_decide (resource ≠ None))
  else if decide (resource_type = "media") then
    await resource <- MediaFile_find_one
      (λ f, MediaFile.id f = resource_id ∧ MediaFile.user_id f = user_id) ;;
    ret (bool_decide (resource ≠ None))
  else if decide (resource_type = "conversation") then
    await resource <- LLMConversation_find_one
      (λ c, LLMConversation.id c = resource_id ∧ LLMConversation.user_id c = user_id) ;;
    ret (bool_decide (resource ≠ None))
  else ret false.

Definition get_user_preferences (new_id : ObjectId) (now : datetime)
    (user_id : ObjectId) : M UserPreferences.t :=
  await preferences <- UserPreferences_find_one
    (λ p, UserPreferences.user_id p = VOid user_id) ;;
  match preferences with
  | None =>
      let preferences := UserPreferences.default new_id user_id now in
      await_ UserPreferences_insert preferences ;;
      ret preferences
  | Some preferences => ret preferences
  end.

(** [UserPreferences(user_id=user_id, **preferences_data)]: a second
    [user_id] keyword is a [TypeError]; every other declared field is
    taken from the dictionary when present (after validation) and from
    its default otherwise; undeclared keys are ignored. *)
Definition construct_field (data : gmap string value) (acc : result UserPreferences.t)
    (field : string) : result UserPreferences.t :=
  match acc with
  | Raise e => Raise e
  | Return p =>
      match data !! field with
      | None => Return p
      | Some v =>
          match validate field v with
          | Some v' => Return (UserPreferences.setattr p field v')
          | None => Raise ValidationError
          end
      end
  end.

Definition construct (new_id : ObjectId) (now : datetime) (user_id : ObjectId)
    (data : gmap string value) : result UserPreferences.t :=
  if decide (is_Some (data !! "user_id")) then Raise TypeError
  else foldl (construct_field data)
         (Return (UserPreferences.default new_id user_id now))
         (filter (λ f, f ≠ "user_id") UserPreferences.fields).

(** The [for key, value in preferences_data.items()] loop: every key
    that names an attribute is assigned. *)
Definition assign_all (p : UserPreferences.t) (items : list (string * value))
  : UserPreferences.t :=
  foldl (λ p kv, if UserPreferences.hasattr kv.1
                 then UserPreferences.setattr p kv.1 kv.2 else p) p items.

Definition update_user_preferences (new_id : ObjectId) (now : datetime)
    (user_id : ObjectId) (preferences_data : gmap string value) : M UserPreferences.t :=
  await preferences <- UserPreferences_find_one
    (λ p, UserPreferences.user_id p = VOid user_id) ;;
  match preferences with
  | None =>
      match construct new_id now user_id preferences_data with
      | Raise e => raise e
      | Return preferences =>
          await_ UserPreferences_insert preferences ;;
          ret preferences
      end
  | Some preferences =>
      let preferences := assign_all preferences (map_to_list preferences_data) in
      let preferences := UserPreferences.setattr preferences "updated_at" (VTime now) in
      await_ UserPreferences_save preferences ;;
      ret preferences
  end.
End WithPydantic.
End UserService.

(** ** [services/storage_service.py] *)

Module StorageService.
Record t := mk {
  storage_type : string;
  max_file_size : Z;
  allowed_extensions : list string;
  bucket_name : string
}.

(** [os.remove(path)]: an [OSError] when the file is missing or the
    file system refuses. *)
Definition os_remove (path : string) : M unit :=
  λ w, if blob_delete_fails (faults w) then (Raise OSError, w)
       else if decide (path ∈ blobs w)
            then (Return tt, set_blobs (λ b, b ∖ {[path]}) w)
            else (Raise OSError, w).

(** [s3_client.delete_object(Bucket, Key)]: a [ClientError] when the
    service refuses; deleting an absent key succeeds. *)
Definition s3_delete_object (key : string) : M unit :=
  λ w, if blob_delete_fails (faults w) then (Raise ClientError, w)
       else (Return tt, set_blobs (λ b, b ∖ {[key]}) w).

Definition get_file_url (self : t) (file_path : string) : M (option string) :=
  if decide (storage_type self = "local") then
    ret (Some ("/files/" +:+ file_path))
  else if decide (storage_type self = "s3") then
    ret (Some ("https://" +:+ bucket_name self +:+ ".s3.amazonaws.com/" +:+ file_path))
  else ret None.

(** The function falls off its end ([None]) for any other storage type. *)
Definition delete_file (self : t) (file_path : string) : M (option bool) :=
  if decide (storage_type self = "local") then
    try_except
      (await_ os_remove file_path ;; ret (Some true))
      is_OSError (λ _, ret (Some false))
  else if decide (storage_type self = "s3") then
    try_except
      (await_ s3_delete_object file_path ;; ret (Some true))
      is_ClientError (λ _, ret (Some false))
  else ret None.
End StorageService.

(** ** [auth.py] *)

Module UserManager.
(** [PydanticObjectId(str(user_id))] is the identity on the ids that
    reach it; the [except] clause logs and re-raises. *)
Definition create_user_preferences (new_id : ObjectId) (now : datetime)
    (user_id : ObjectId) : M unit :=
  try_except
    (await existing_preferences <- UserPreferences_find_one
       (λ p, UserPreferences.user_id p = VOid user_id) ;;
     match existing_preferences with
     | None => UserPreferences_insert (UserPreferences.default new_id user_id now)
     | Some _ => ret tt
     end)
    Exception (λ e, raise e).

Definition on_after_register (new_id : ObjectId) (now : datetime)
    (user : UserDB.t) : M unit :=
  try_except
    (create_user_preferences new_id now (UserDB.id user))
    Exception (λ _, ret tt).

(** [new_user_id] and [new_prefs_id] are the ids drawn for the documents
    the call may construct; [kwargs] carries [name] and [picture]. *)
Definition oauth_callback (new_user_id new_prefs_id : ObjectId) (now : datetime)
    (oauth_name access_token account_id account_email : string)
    (kwargs : gmap string string) : M (option UserDB.t) :=
  if decide (oauth_name = "google") then
    await user <- UserDB_find_one (λ u, UserDB.google_id u = Some account_id) ;;
    match user with
    | Some user => ret (Some user)
    | None =>
        await user <- UserDB_find_one (λ u, UserDB.email u = account_email) ;;
        match user with
        | Some user =>
            let user :=
              {| UserDB.id := UserDB.id user;
                 UserDB.email := UserDB.email user;
                 UserDB.hashed_password := UserDB.hashed_password user;
                 UserDB.is_active := UserDB.is_active user;
                 UserDB.is_superuser := UserDB.is_superuser user;
                 UserDB.is_verified := UserDB.is_verified user;
                 UserDB.full_name := kwargs !! "name";
                 UserDB.google_id := Some account_id;
                 UserDB.avatar_url := kwargs !! "picture";
                 UserDB.role := UserDB.role user;
                 UserDB.created_at := UserDB.created_at user;
                 UserDB.updated_at := now |} in
            await_ UserDB_save user ;;
            ret (Some user)
        | None =>
            let user :=
              {| UserDB.id := new_user_id;
                 UserDB.email := account_email;
                 UserDB.hashed_password := "";
                 UserDB.is_active := true;
                 UserDB.is_superuser := false;
                 UserDB.is_verified := true;
                 UserDB.full_name := kwargs !! "name";
                 UserDB.google_id := Some account_id;
                 UserDB.avatar_url := kwargs !! "picture";
                 UserDB.role := "interviewee";
                 UserDB.created_at := now;
                 UserDB.updated_at := now |} in
            await_ UserDB_insert user ;;
            await_ create_user_preferences new_prefs_id now (UserDB.id user) ;;
            ret (Some user)
        end
    end
  else ret None.
End UserManager.

(** ** Registration through the account manager

    [register] in [main.py] hands the request to [user_manager.create],
    which [UserManager] inherits from the fastapi-users [BaseUserManager];
    the Beanie adapter looks the email up with the collation that the
    document class declares in [Settings.email_collation].  The repository
    sets that attribute in [models.py]; the inherited method is rendered
    here as the library documents it. *)

(** The collation of a MongoDB query. *)
Inductive Collation :=
| CaseInsensitive.   (* Collation("en", strength=2) *)

Definition lower_ascii (c : Ascii.ascii) : Ascii.ascii :=
  let n := Ascii.nat_of_ascii c in
  if ((65 <=? n) && (n <=? 90))%nat then Ascii.ascii_of_nat (n + 32) else c.

Fixpoint lower (s : string) : string :=
  match s with
  | EmptyString => EmptyString
  | String c s' => String (lower_ascii c) (lower s')
  end.

(** Equality of two strings under a collation; without one the comparison
    is binary. *)
Definition collate_eqb (c : option Collation) (a b : string) : bool :=
  match c with
  | None => bool_decide (a = b)
  | Some CaseInsensitive => bool_decide (lower a = lower b)
  end.

Module UserDB_Settings.
Definition name : string := "users".
(** [indexes]: two plain (non-unique) ascending indexes. *)
Definition indexes : list (string * Z * bool) :=
  [("email", 1, false); ("google_id", 1, false)].
Definition email_collation : option Collation := None.
End UserDB_Settings.

Module UserPreferences_Settings.
Definition name : string := "user_preferences".
Definition indexes : list (string * Z * bool) := [("user_id", 1, false)].
End UserPreferences_Settings.

Module UserCreate.
Record t := mk {
  email : string;
  password : string;
  is_active : bool;
  is_superuser : bool;
  is_verified : bool;
  full_name : option string;
  role : string
}.
End UserCreate.

Module BaseUserManager.
Section WithPasswordHelper.
(** [password_helper.hash]. *)
Variable hash : string → string.

Definition get_by_email (collation : option Collation) (email : string)
  : M (option UserDB.t) :=
  UserDB_find_one (λ u, collate_eqb collation (UserDB.email u) email = true).

Definition create (new_user_id new_prefs_id : ObjectId) (now : datetime)
    (user_create : UserCreate.t) : M UserDB.t :=
  await existing_user <- get_by_email UserDB_Settings.email_collation
                           (UserCreate.email user_create) ;;
  match existing_user with
  | Some _ => raise UserAlreadyExists
  | None =>
      let created_user :=
        {| UserDB.id := new_user_id;
           UserDB.email := UserCreate.email user_create;
           UserDB.hashed_password := hash (UserCreate.password user_create);
           UserDB.is_active := UserCreate.is_active user_create;
           UserDB.is_superuser := UserCreate.is_superuser user_create;
           UserDB.is_verified := UserCreate.is_verified user_create;
           UserDB.full_name := UserCreate.full_name user_create;
           UserDB.google_id := None;
           UserDB.avatar_url := None;
           UserDB.role := UserCreate.role user_create;
           UserDB.created_at := now;
           UserDB.updated_at := now |} in
      await_ UserDB_insert created_user ;;
      await_ UserManager.on_after_register new_prefs_id now created_user ;;
      ret created_user
  end.
End WithPasswordHelper.
End BaseUserManager.

(** ** The token service ([get_jwt_strategy] in [auth.py]) *)

Module JWTStrategy.
Record t := mk {
  secret : string;
  lifetime_seconds : Z
}.
End JWTStrategy.


Module TokenService.
(** Modelled from the spec: the encoding, signing and validation of the
    bearer token ([JWTStrategy.write_token] and [read_token]) are not in
    the repository, which only configures the strategy.  A token
    encodes the user id and the expiry and is signed with the secret. *)
Record AuthToken := {
  principal : ObjectId;
  issued_at : datetime;
  expires_at : datetime;
  signature : string
}.

Inductive TokenInvalid := ExpiredToken | MalformedToken | InvalidSignature.


(** Modelled from the spec: [validate(token) -> user_id | fails(...)],
    which verifies signature and expiry.  The spec fixes the outcome
    strictly before and strictly after the expiry; [at_expiry] is the
    outcome at the expiry instant itself. *)
Definition validate (at_expiry : bool) (strategy : JWTStrategy.t) (now : datetime)
    (token : AuthToken) : TokenInvalid + ObjectId :=
  if decide (signature token = JWTStrategy.secret strategy) then
    if decide (now < expires_at token) then inr (principal token)
    else if decide (now = expires_at token) then
           (if at_expiry then inr (principal token) else inl ExpiredToken)
    else inl ExpiredToken
  else inl InvalidSignature.
End TokenService.

(** ** [main.py] *)

Module UserRead.
(** The id is the user's [ObjectId], rendered by [str]. *)
Record t := mk {
  id : ObjectId;
  email : string;
  is_active : bool;
  is_superuser : bool;
  is_verified : bool;
  full_name : option string;
  avatar_url : option string;
  role : string;
  created_at : datetime
}.

Definition of_user (u : UserDB.t) : t :=
  {| id := UserDB.id u; email := UserDB.email u;
     is_active := UserDB.is_active u; is_superuser := UserDB.is_superuser u;
     is_verified := UserDB.is_verified u; full_name := UserDB.full_name u;
     avatar_url := UserDB.avatar_url u; role := UserDB.role u;
     created_at := UserDB.created_at u |}.
End UserRead.

Module main.
Section WithServices.
Variable hash : string → string.
Variable validate : string → value → option value.
(** The module-level [storage_service = StorageService()]. *)
Variable storage_service : StorageService.t.

Definition register (new_user_id new_prefs_id : ObjectId) (now : datetime)
    (user_create : UserCreate.t) : M UserRead.t :=
  try_except
    (await user <- BaseUserManager.create hash new_user_id new_prefs_id now user_create ;;
     ret (UserRead.of_user user))
    Exception (λ e, raise (HTTPException 400 (exn_str e))).

(** The [userinfo] claims of the token Google returns. *)
Record UserInfo := {
  sub : string;
  info_email : string;
  info_name : option string;
  info_picture : option string
}.

Definition kwargs_of (user_info : UserInfo) : gmap string string :=
  let with_name :=
    match info_name user_info with
    | Some n => <["name" := n]> (∅ : gmap string string)
    | None => ∅
    end in
  match info_picture user_info with
  | Some p => <["picture" := p]> with_name
  | None => with_name
  end.

Definition google_callback (new_user_id new_prefs_id : ObjectId) (now : datetime)
    (access_token : string) (user_info : option UserInfo) : M (string * option ObjectId) :=
  try_except
    (match user_info with
     | Some user_info =>
         await user <- UserManager.oauth_callback new_user_id new_prefs_id now
                         "google" access_token (sub user_info) (info_email user_info)
                         (kwargs_of user_info) ;;
         match user with
         | Some user => ret ("Google authentication successful", Some (UserDB.id user))
         | None => raise AttributeError
         end
     | None => raise (HTTPException 400 "Google authentication failed")
     end)
    Exception (λ e, raise (HTTPException 400 (exn_str e))).

Definition create_session (new_id : ObjectId) (now : datetime)
    (session_data : gmap string value) (current_user : UserDB.t) : M UserSession.t :=
  UserService.create_user_session new_id now (UserDB.id current_user) session_data.

Definition get_user_sessions (current_user : UserDB.t) : M (list UserSession.t) :=
  UserService.get_user_sessions (UserDB.id current_user).

Definition get_session (session_id : ObjectId) (current_user : UserDB.t)
  : M (option UserSession.t) :=
  await owns <- UserService.user_owns_resource (UserDB.id current_user) session_id "session" ;;
  if negb owns then raise (HTTPException 404 "Session not found")
  else UserService.get_session_by_id session_id.

Definition get_user_files (session_id : option ObjectId) (current_user : UserDB.t)
  : M (list MediaFile.t) :=
  UserService.get_user_media_files (UserDB.id current_user) session_id.

Record FileInfo := {
  file_id : ObjectId;
  file_url : option string;
  info_file_type : string;
  info_file_size : option Z;
  info_created_at : datetime
}.

Definition get_file (file_id : ObjectId) (current_user : UserDB.t) : M FileInfo :=
  await owns <- UserService.user_owns_resource (UserDB.id current_user) file_id "media" ;;
  if negb owns then raise (HTTPException 404 "File not found")
  else
    await media_file <- MediaFile_get file_id ;;
    match media_file with
    | None => raise AttributeError
    | Some media_file =>
        await url <- StorageService.get_file_url storage_service
                       (MediaFile.file_path media_file) ;;
        ret {| file_id := MediaFile.id media_file; file_url := url;
               info_file_type := MediaFile.file_type media_file;
               info_file_size := MediaFile.file_size media_file;
               info_created_at := MediaFile.created_at media_file |}
    end.

Definition delete_file (file_id : ObjectId) (current_user : UserDB.t) : M string :=
  await owns <- UserService.user_owns_resource (UserDB.id current_user) file_id "media" ;;
  if negb owns then raise (HTTPException 404 "File not found")
  else
    await media_file <- MediaFile_get file_id ;;
    match media_file with
    | None => raise AttributeError
    | Some media_file =>
        await_ StorageService.delete_file storage_service
                 (MediaFile.file_path media_file) ;;
        await_ MediaFile_delete media_file ;;
        ret "File deleted successfully"
    end.

Definition get_user_preferences (new_id : ObjectId) (now : datetime)
    (current_user : UserDB.t) : M UserPreferences.t :=
  UserService.get_user_preferences new_id now (UserDB.id current_user).

Definition update_user_preferences (new_id : ObjectId) (now : datetime)
    (preferences_data : gmap string value) (current_user : UserDB.t)
  : M UserPreferences.t :=
  UserService.update_user_preferences validate new_id now
    (UserDB.id current_user) preferences_data.
End WithServices.
End main.

(** ** The upload path ([storage_service.py], [upload_file] in [main.py])

    These functions raise [ValueError] and meet [InvalidId], which the
    handlers of [upload_file] tell apart; their computations carry the
    wider exception type below. *)

Module UploadFile.
(** The part of a multipart upload the code reads: the file name, the
    declared content type and the bytes that [file.read()] returns. *)
Record t := mk {
  filename : string;
  content_type : option string;
  content : list Byte.byte
}.
End UploadFile.

Inductive upload_exn :=
| ValueError (msg : string)
| InvalidId                    (* bson.errors.InvalidId *)
| Exn (e : exn).

Definition upload_exn_str (e : upload_exn) : string :=
  match e with
  | ValueError msg => msg
  | InvalidId => "InvalidId"
  | Exn e => exn_str e
  end.

Definition U (A : Type) : Type := World → (upload_exn + A) * World.

Definition uret {A} (a : A) : U A := λ w, (inr a, w).
Definition uraise {A} (e : upload_exn) : U A := λ w, (inl e, w).
Definition ubind {A B} (m : U A) (k : A → U B) : U B :=
  λ w, match m w with
       | (inr a, w') => k a w'
       | (inl e, w') => (inl e, w')
       end.
(** A coroutine of the other modules, run inside the upload path. *)
Definition lift {A} (m : M A) : U A :=
  λ w, match m w with
       | (Return a, w') => (inr a, w')
       | (Raise e, w') => (inl (Exn e), w')
       end.

Declare Scope upload_scope.
Delimit Scope upload_scope with upload.
Notation "'await' x <- m ;; k" := (ubind m (λ x, k))
  (at level 100, x name, m at next level, k at level 200, right associativity) : upload_scope.
Notation "'await_' m ;; k" := (ubind m (λ _, k))
  (at level 100, m at next level, k at level 200, right associativity) : upload_scope.

(** [s.endswith(ext)] and [s.startswith(p)]. *)
Definition endswith (s ext : string) : bool :=
  String.prefix (String.rev ext) (String.rev s).
Definition startswith (s p : string) : bool := String.prefix p s.

Module FileMetadata.
Record t := mk {
  file_path : string;
  file_size : Z;
  mime_type : option string
}.
End FileMetadata.

Module Upload.
Section WithEnvironment.
Local Open Scope upload_scope.
(** [str(id)]: the 24 hexadecimal digits of an [ObjectId]. *)
Variable str_oid : ObjectId → string.
(** [PydanticObjectId(s)]: the id that [s] denotes, if it denotes one. *)
Variable parse_oid : string → option ObjectId.
(** [Path(name).suffix]. *)
Variable path_suffix : string → string.
Variable storage_service : StorageService.t.

Definition validate_file (self : StorageService.t) (file : UploadFile.t) : bool :=
  existsb (λ ext, endswith (lower (UploadFile.filename file)) ext)
    (StorageService.allowed_extensions self).

Definition too_large (self : StorageService.t) : string :=
  "File too large. Max size: " +:+ pretty (StorageService.max_file_size self)
  +:+ " bytes".

(** Writing [content] under [storage/file_path]; the directories that
    [mkdir] creates are not blobs, and the path is the one [Path] prints
    when no component of it is empty or a dot. *)
Definition _save_local (self : StorageService.t) (file : UploadFile.t)
    (file_path : string) : U FileMetadata.t :=
  let full_path := "storage/" +:+ file_path in
  let content := UploadFile.content file in
  if decide (StorageService.max_file_size self < Z.of_nat (length content)) then
    uraise (ValueError (too_large self))
  else
    await_ lift (modify (set_blobs (λ b, {[ full_path ]} ∪ b))) ;;
    uret {| FileMetadata.file_path := full_path;
            FileMetadata.file_size := Z.of_nat (length content);
            FileMetadata.mime_type := UploadFile.content_type file |}.

(** [put_object] under the key [file_path]; the [ValueError] raised inside
    the [try] is not a [ClientError] and passes through. *)
Definition _save_s3 (self : StorageService.t) (file : UploadFile.t)
    (file_path : string) : U FileMetadata.t :=
  let content := UploadFile.content file in
  if decide (StorageService.max_file_size self < Z.of_nat (length content)) then
    uraise (ValueError (too_large self))
  else
    await_ lift (modify (set_blobs (λ b, {[ file_path ]} ∪ b))) ;;
    uret {| FileMetadata.file_path := file_path;
            FileMetadata.file_size := Z.of_nat (length content);
            FileMetadata.mime_type := UploadFile.content_type file |}.

(** [file_id] is the [str(uuid.uuid4())] the call draws; an empty
    [session_id] is falsy. *)
Definition save_file (self : StorageService.t) (file_id : string)
    (file : UploadFile.t) (user_id : string) (session_id : option string)
  : U FileMetadata.t :=
  if negb (validate_file self file) then uraise (ValueError "Invalid file type")
  else
    let file_extension := path_suffix (UploadFile.filename file) in
    let file_path :=
      match session_id with
      | Some sid =>
          if decide (sid = "") then
            "users/" +:+ user_id +:+ "/uploads/" +:+ file_id +:+ file_extension
          else
            "users/" +:+ user_id +:+ "/sessions/" +:+ sid +:+ "/" +:+ file_id
            +:+ file_extension
      | None => "users/" +:+ user_id +:+ "/uploads/" +:+ file_id +:+ file_extension
      end in
    if decide (StorageService.storage_type self = "local") then
      _save_local self file file_path
    else if decide (StorageService.storage_type self = "s3") then
      _save_s3 self file file_path
    else
      uraise (ValueError ("Unsupported storage type: "
                          +:+ StorageService.storage_type self)).

Definition MediaFile_insert (f : MediaFile.t) : M unit :=
  λ w, match insert MediaFile.id f (media_files w) with
       | Some c => (Return tt, set_media_files (λ _, c) w)
       | None => (Raise DuplicateKeyError, w)
       end.

(** The answer of a successful upload. *)
Record Uploaded := {
  uploaded_file_id : string;
  uploaded_message : string;
  uploaded_file_path : string
}.

(** The body of the [try] block of [upload_file]; the keyword arguments of
    [MediaFile(...)] are evaluated in the order written. *)
Definition upload_body (new_id : ObjectId) (now : datetime) (file_id : string)
    (file : UploadFile.t) (session_id : option string) (current_user : UserDB.t)
  : U Uploaded :=
  if negb (validate_file storage_service file) then
    uraise (Exn (HTTPException 400 "Invalid file type"))
  else
    await file_metadata <- save_file storage_service file_id file
                             (str_oid (UserDB.id current_user)) session_id ;;
    await media_session <-
      match session_id with
      | Some sid =>
          if decide (sid = "") then uret None
          else match parse_oid sid with
               | Some i => uret (Some i)
               | None => uraise InvalidId
               end
      | None => uret None
      end ;;
    await file_type <-
      match UploadFile.content_type file with
      | Some ct => uret (if startswith ct "video" then "video" else "audio")
      | None => uraise (Exn AttributeError)
      end ;;
    let media_file :=
      {| MediaFile.id := new_id;
         MediaFile.user_id := UserDB.id current_user;
         MediaFile.session_id := media_session;
         MediaFile.file_type := file_type;
         MediaFile.file_path := FileMetadata.file_path file_metadata;
         MediaFile.file_size := Some (FileMetadata.file_size file_metadata);
         MediaFile.duration := None;
         MediaFile.mime_type := FileMetadata.mime_type file_metadata;
         MediaFile.created_at := now;
         MediaFile.processing_status := "pending";
         MediaFile.ai_analysis := None |} in
    await_ lift (MediaFile_insert media_file) ;;
    uret {| uploaded_file_id := str_oid (MediaFile.id media_file);
            uploaded_message := "File uploaded successfully";
            uploaded_file_path := FileMetadata.file_path file_metadata |}.

(** [except ValueError] answers 400, [except Exception] answers 500; the
    400 raised for an invalid type is itself caught by the second. *)
Definition upload_file (new_id : ObjectId) (now : datetime) (file_id : string)
    (file : UploadFile.t) (session_id : option string) (current_user : UserDB.t)
  : M Uploaded :=
  λ w, match upload_body new_id now file_id file session_id current_user w with
       | (inr r, w') => (Return r, w')
       | (inl (ValueError msg), w') => (Raise (HTTPException 400 msg), w')
       | (inl e, w') =>
           (Raise (HTTPException 500 ("Upload failed: " +:+ upload_exn_str e)), w')
       end.
End WithEnvironment.
End Upload.

(** * Notions and sample stores used in the statements *)

(** A resource of kind [kind] with id [r] exists and belongs to [u]. *)
Definition owns (w : World) (kind : string) (r u : ObjectId) : Prop :=
  (kind = "session" ∧
     ∃ s, s ∈ user_sessions w ∧ UserSession.id s = r ∧ UserSession.user_id s = u)
  ∨ (kind = "media" ∧
     ∃ f, f ∈ media_files w ∧ MediaFile.id f = r ∧ MediaFile.user_id f = u)
  ∨ (kind = "conversation" ∧
     ∃ c, c ∈ llm_conversations w ∧ LLMConversation.id c = r ∧ LLMConversation.user_id c = u).

(** A resource of kind [kind] with id [r] exists, whoever owns it. *)
Definition resource_exists (w : World) (kind : string) (r : ObjectId) : Prop :=
  ∃ u, owns w kind r u.

Definition sample_session (i u : ObjectId) (t : datetime) : UserSession.t :=
  UserSession.mk i u "mock interview" "technical" "active" t t None.

Definition sample_user (i : ObjectId) (mail : string) : UserDB.t :=
  UserDB.mk i mail "$2b$12$abc" true false false None None None "interviewee" 0 0.

Definition sample_media (i u : ObjectId) (path : string) : MediaFile.t :=
  MediaFile.mk i u None "video" path (Some 10) None (Some "video/mp4") 0 "pending" None.

Definition local_storage : StorageService.t :=
  StorageService.mk "local" (100 * 1024 * 1024)
    [".mp4"; ".mov"; ".avi"; ".mp3"; ".wav"; ".m4a"; ".webm"] "".

(** One session, owned by user 1. *)
Definition world_one_session : World :=
  set_user_sessions (λ _, [sample_session 10 1 100]) empty_world.

(** The sequence is ordered by [created_at], newest first. *)
Definition created_at_descending (l : list UserSession.t) : Prop :=
  ∀ i j a b, l !! i = Some a → l !! j = Some b → (i < j)%nat →
    UserSession.created_at b ≤ UserSession.created_at a.

Definition sample_session_data : gmap string value :=
  {[ "session_name" := VStr "mock interview"; "session_type" := VStr "technical" ]}.

(** User 1 creates a session at time 100 and another at time 200. *)
Definition world_two_sessions : World :=
  let w1 := (UserService.create_user_session 10 100 1 sample_session_data empty_world).2 in
  (UserService.create_user_session 11 200 1 sample_session_data w1).2.

(** User 1 owns file 20, stored under the local backend. *)
Definition world_one_file : World :=
  set_blobs (λ _, {[ "storage/users/1/uploads/a.mp4" ]})
    (set_media_files (λ _, [sample_media 20 1 "storage/users/1/uploads/a.mp4"])
       empty_world).


(** The preferences store is down. *)
Definition world_prefs_down : World :=
  set_faults {| prefs_find_fails := true; prefs_insert_fails := true;
                blob_delete_fails := false; media_delete_fails := false |}
    empty_world.

Definition google_profile : gmap string string :=
  {[ "name" := "Ada"; "picture" := "https://img/ada.png" ]}.

Definition ada_from_google : UserDB.t :=
  UserDB.mk 1 "ada@x.com" "" true false true
    (Some "Ada") (Some "sub-1") (Some "https://img/ada.png") "interviewee" 100 100.

(** The record that the third branch constructs. *)
Definition new_google_user (new_user_id : ObjectId) (now : datetime)
    (account_id account_email : string) (kwargs : gmap string string) : UserDB.t :=
  {| UserDB.id := new_user_id; UserDB.email := account_email;
     UserDB.hashed_password := ""; UserDB.is_active := true;
     UserDB.is_superuser := false; UserDB.is_verified := true;
     UserDB.full_name := kwargs !! "name"; UserDB.google_id := Some account_id;
     UserDB.avatar_url := kwargs !! "picture"; UserDB.role := "interviewee";
     UserDB.created_at := now; UserDB.updated_at := now |}.

(** What the second branch assigns to the user found by email. *)
Definition linked (now : datetime) (account_id : string)
    (kwargs : gmap string string) (user user' : UserDB.t) : Prop :=
  UserDB.id user' = UserDB.id user
  ∧ UserDB.email user' = UserDB.email user
  ∧ UserDB.hashed_password user' = UserDB.hashed_password user
  ∧ UserDB.is_active user' = UserDB.is_active user
  ∧ UserDB.is_superuser user' = UserDB.is_superuser user
  ∧ UserDB.is_verified user' = UserDB.is_verified user
  ∧ UserDB.role user' = UserDB.role user
  ∧ UserDB.created_at user' = UserDB.created_at user
  ∧ UserDB.google_id user' = Some account_id
  ∧ UserDB.full_name user' = kwargs !! "name"
  ∧ UserDB.avatar_url user' = kwargs !! "picture"
  ∧ UserDB.updated_at user' = now.

(** A password account, not yet verified, and nothing else. *)
Definition world_password_account : World :=
  set_users (λ _, [sample_user 1 "ada@x.com"]) empty_world.

(** At most one preferences record carries a given user's id. *)
Definition at_most_one_per_user (prefs : list UserPreferences.t) : Prop :=
  ∀ u : ObjectId,
    (length (filter (λ v, v = VOid u) (UserPreferences.user_id <$> prefs)) ≤ 1)%nat.

Definition prefs_wf (w : World) : Prop :=
  unique_ids UserPreferences.id (user_preferences w)
  ∧ at_most_one_per_user (user_preferences w).

(** Users 1 and 2 each have their preferences record. *)
Definition world_two_prefs : World :=
  set_user_preferences
    (λ _, [UserPreferences.default 10 1 0; UserPreferences.default 11 2 0])
    empty_world.

(** A validation that accepts every value as it is. *)
Definition accept_all (field : string) (v : value) : option value := Some v.

(** The normalisation the specification speaks of: trim, then lowercase. *)
Fixpoint lstrip (s : string) : string :=
  match s with
  | String c s' => if Ascii.is_space c then lstrip s' else s
  | EmptyString => EmptyString
  end.

Definition strip (s : string) : string :=
  String.rev (lstrip (String.rev (lstrip s))).

Definition normalize_email (s : string) : string := lower (strip s).


(** A clip of [n] bytes. *)
Definition sample_upload (name : string) (n : nat) : UploadFile.t :=
  UploadFile.mk name (Some "video/mp4") (replicate n Byte.x00).

(** A storage service of the given kind that accepts at most [limit]
    bytes. *)
Definition storage_of (kind : string) (limit : Z) : StorageService.t :=
  StorageService.mk kind limit
    [".mp4"; ".mov"; ".avi"; ".mp3"; ".wav"; ".m4a"; ".webm"] "bucket".

(** Sample renderings for the environment of the upload path. *)
Definition sample_str_oid (i : ObjectId) : string := pretty i.
Definition sample_parse_oid (s : string) : option ObjectId :=
  if decide (s = "10") then Some 10%N else None.
Definition sample_suffix (name : string) : string := ".mp4".

(** The session a request names: none when the parameter is absent or
    empty, the parsed id otherwise; [None] when it does not parse. *)
Definition resolve_session (parse_oid : string → option ObjectId)
    (session_id : option string) : option (option ObjectId) :=
  match session_id with
  | Some sid => if decide (sid = "") then Some None else Some <$> parse_oid sid
  | None => Some None
  end.

(** The path under which an upload is stored. *)
Definition stored_path (self : StorageService.t) (user_id file_id ext : string)
    (session_id : option string) : string :=
  let file_path :=
    match session_id with
    | Some sid =>
        if decide (sid = "") then
          "users/" +:+ user_id +:+ "/uploads/" +:+ file_id +:+ ext
        else
          "users/" +:+ user_id +:+ "/sessions/" +:+ sid +:+ "/" +:+ file_id +:+ ext
    | None => "users/" +:+ user_id +:+ "/uploads/" +:+ file_id +:+ ext
    end in
  if decide (StorageService.storage_type self = "local")
  then "storage/" +:+ file_path else file_path.

(** The record that a successful upload inserts. *)
Definition uploaded_record (new_id : ObjectId) (now : datetime)
    (owner : ObjectId) (session : option ObjectId) (content_type path : string)
    (size : nat) : MediaFile.t :=
  {| MediaFile.id := new_id;
     MediaFile.user_id := owner;
     MediaFile.session_id := session;
     MediaFile.file_type := if startswith content_type "video" then "video" else "audio";
     MediaFile.file_path := path;
     MediaFile.file_size := Some (Z.of_nat size);
     MediaFile.duration := None;
     MediaFile.mime_type := Some content_type;
     MediaFile.created_at := now;
     MediaFile.processing_status := "pending";
     MediaFile.ai_analysis := None |}.


(** * Properties *)

(** ** Facts about the collection operations *)

Section CollectionFacts.
Context {K A : Type} `{EqDecision K} (doc_id : A → K).
Implicit Types (c : list A) (d : A).

Lemma find_one_Some (P : A → Prop) `{∀ x, Decision (P x)} c d :
  find_one P c = Some d → d ∈ c ∧ P d.
Proof.
  unfold find_one. destruct (list_find P c) as [[i x]|] eqn:E; [|done].
  intros [= <-]. apply list_find_Some in E as (Hl & HP & _).
  split; [by eapply list_elem_of_lookup_2|done].
Qed.

Lemma find_one_None (P : A → Prop) `{∀ x, Decision (P x)} c :
  find_one P c = None ↔ ∀ d, d ∈ c → ¬ P d.
Proof.
  unfold find_one. rewrite fmap_None, list_find_None, Forall_forall. done.
Qed.

Lemma find_one_is_Some (P : A → Prop) `{∀ x, Decision (P x)} c :
  find_one P c ≠ None ↔ ∃ d, d ∈ c ∧ P d.
Proof.
  split.
  - destruct (find_one P c) as [d|] eqn:E; [|done].
    intros _. exists d. by eapply find_one_Some.
  - intros (d & Hd & HP) E. rewrite find_one_None in E. by eapply E.
Qed.

Lemma find_one_cons (P : A → Prop) `{∀ x, Decision (P x)} d c :
  find_one P (d :: c) = if decide (P d) then Some d else find_one P c.
Proof.
  unfold find_one. simpl. destruct (decide (P d)); [done|].
  destruct (list_find P c) as [[i x]|]; done.
Qed.

Lemma find_one_app_l (P : A → Prop) `{∀ x, Decision (P x)} c c' d :
  find_one P c = Some d → find_one P (c ++ c') = Some d.
Proof.
  induction c as [|x c IH]; [done|]. simpl. rewrite !find_one_cons.
  destruct (decide (P x)); auto.
Qed.

Lemma find_one_app_r (P : A → Prop) `{∀ x, Decision (P x)} c c' :
  find_one P c = None → find_one P (c ++ c') = find_one P c'.
Proof.
  induction c as [|x c IH]; [done|]. simpl. rewrite !find_one_cons.
  destruct (decide (P x)); [done|auto].
Qed.

Lemma elem_of_replace_one d c x :
  x ∈ replace_one doc_id d c → x = d ∨ x ∈ c.
Proof.
  induction c as [|y c IH]; simpl; [by right|].
  destruct (decide (doc_id y = doc_id d)); rewrite !elem_of_cons; tauto.
Qed.

Lemma replace_one_elem_of d c :
  Exists (λ d', doc_id d' = doc_id d) c → d ∈ replace_one doc_id d c.
Proof.
  induction 1 as [y c Hy|y c _ IH]; simpl.
  - rewrite decide_True by done. left.
  - destruct (decide (doc_id y = doc_id d)); [left|right; done].
Qed.

Lemma length_replace_one d c : length (replace_one doc_id d c) = length c.
Proof.
  induction c as [|y c IH]; simpl; [done|].
  destruct (decide (doc_id y = doc_id d)); simpl; congruence.
Qed.

Lemma fmap_id_replace_one d c :
  doc_id <$> replace_one doc_id d c = doc_id <$> c.
Proof.
  induction c as [|y c IH]; csimpl; [done|].
  destruct (decide (doc_id y = doc_id d)) as [E|_]; csimpl; [by rewrite E|].
  by rewrite IH.
Qed.

Lemma length_save d c :
  Exists (λ d', doc_id d' = doc_id d) c → length (save doc_id d c) = length c.
Proof. intros. unfold save. rewrite decide_True by done. apply length_replace_one. Qed.

Lemma elem_of_delete_one k c x : x ∈ delete_one doc_id k c → x ∈ c.
Proof.
  induction c as [|y c IH]; simpl; [done|].
  destruct (decide (doc_id y = k)); rewrite ?elem_of_cons; tauto.
Qed.

Lemma delete_one_unique k c x :
  unique_ids doc_id c → x ∈ delete_one doc_id k c → doc_id x ≠ k.
Proof.
  unfold unique_ids. induction c as [|y c IH]; csimpl; [by intros _ ?%elem_of_nil|].
  rewrite NoDup_cons. intros [Hy Hc].
  destruct (decide (doc_id y = k)) as [<-|Hne].
  - intros Hx E. apply Hy. rewrite <- E. by apply list_elem_of_fmap_2.
  - rewrite elem_of_cons. intros [->|Hx]; [done|]. by apply IH.
Qed.

Lemma unique_ids_insert d c c' :
  unique_ids doc_id c → insert doc_id d c = Some c' → unique_ids doc_id c'.
Proof.
  unfold unique_ids, insert. intros Hc.
  destruct (decide _) as [|Hne]; [done|]. intros [= <-].
  rewrite fmap_app. simpl. apply NoDup_app. split_and!; [done| |apply NoDup_singleton].
  intros k Hk ->%list_elem_of_singleton. apply Hne.
  apply list_elem_of_fmap in Hk as (d' & E & Hd').
  apply Exists_exists. eauto.
Qed.

Lemma unique_ids_save d c :
  unique_ids doc_id c → unique_ids doc_id (save doc_id d c).
Proof.
  intros Hc. unfold save. destruct (decide _) as [|Hne].
  - unfold unique_ids. by rewrite fmap_id_replace_one.
  - eapply unique_ids_insert; [done|]. unfold insert. by rewrite decide_False.
Qed.

Lemma unique_ids_delete_one k c :
  unique_ids doc_id c → unique_ids doc_id (delete_one doc_id k c).
Proof.
  unfold unique_ids. induction c as [|y c IH]; csimpl; [done|].
  rewrite NoDup_cons. intros [Hy Hc].
  destruct (decide (doc_id y = k)); [done|]. csimpl. apply NoDup_cons. split; [|auto].
  intros Hin. apply Hy. apply list_elem_of_fmap in Hin as (x & -> & Hx).
  apply list_elem_of_fmap_2. by eapply elem_of_delete_one.
Qed.
End CollectionFacts.

Ltac run :=
  unfold bind, ret, raise, gets, modify, try_except in *; simpl in *.

(** ** Ownership guard (C1) *)

Lemma user_owns_resource_session u r w :
  ∃ b, UserService.user_owns_resource u r "session" w = (Return b, w)
       ∧ (b = true ↔ owns w "session" r u).
Proof.
  unfold UserService.user_owns_resource, UserSession_find_one. run.
  eexists. split; [done|].
  rewrite bool_decide_eq_true, find_one_is_Some. unfold owns.
  split; [intros (s & ? & ? & ?); left; eauto|].
  intros [[_ (s & ? & ? & ?)]|[[? _]|[? _]]]; [eauto|done..].
Qed.

Lemma user_owns_resource_media u r w :
  ∃ b, UserService.user_owns_resource u r "media" w = (Return b, w)
       ∧ (b = true ↔ owns w "media" r u).
Proof.
  unfold UserService.user_owns_resource, MediaFile_find_one. run.
  eexists. split; [done|].
  rewrite bool_decide_eq_true, find_one_is_Some. unfold owns.
  split; [intros (s & ? & ? & ?); right; left; eauto|].
  intros [[? _]|[[_ (s & ? & ? & ?)]|[? _]]]; [done|eauto|done].
Qed.

Lemma user_owns_resource_conversation u r w :
  ∃ b, UserService.user_owns_resource u r "conversation" w = (Return b, w)
       ∧ (b = true ↔ owns w "conversation" r u).
Proof.
  unfold UserService.user_owns_resource, LLMConversation_find_one. run.
  eexists. split; [done|].
  rewrite bool_decide_eq_true, find_one_is_Some. unfold owns.
  split; [intros (s & ? & ? & ?); right; right; eauto|].
  intros [[? _]|[[? _]|[_ (s & ? & ? & ?)]]]; [done..|eauto].
Qed.

Lemma user_owns_resource_total u r kind w :
  kind ∈ ["session"; "media"; "conversation"] →
  ∃ b, UserService.user_owns_resource u r kind w = (Return b, w)
       ∧ (b = true ↔ owns w kind r u).
Proof.
  rewrite !elem_of_cons, elem_of_nil.
  intros [->|[->|[->|[]]]];
    auto using user_owns_resource_session, user_owns_resource_media,
               user_owns_resource_conversation.
Qed.

Lemma user_owns_resource_denied u r kind w :
  kind ∈ ["session"; "media"; "conversation"] →
  ¬ owns w kind r u →
  UserService.user_owns_resource u r kind w = (Return false, w).
Proof.
  intros Hk Hno. destruct (user_owns_resource_total u r kind w Hk) as ([] & E & Hb);
    [by destruct Hno; apply Hb|done].
Qed.

(** C1. For the three resource kinds the guard returns, without raising
    and without touching the store, [true] exactly when a resource of that
    kind with that id exists and belongs to the principal; it returns
    [false] when no such resource exists and when it belongs to someone
    else, and the session, file-read and file-delete endpoints answer both
    cases with the same 404. *)
Theorem user_owns_resource_spec
    (storage_service : StorageService.t) (current_user : UserDB.t)
    (r : ObjectId) (kind : string) (w : World) :
  kind ∈ ["session"; "media"; "conversation"] →
  let u := UserDB.id current_user in
  (∃ b, UserService.user_owns_resource u r kind w = (Return b, w)
        ∧ (b = true ↔ owns w kind r u)
        ∧ (¬ resource_exists w kind r → b = false)
        ∧ (resource_exists w kind r → ¬ owns w kind r u → b = false))
  ∧ (¬ owns w "session" r u →
       main.get_session r current_user w
       = (Raise (HTTPException 404 "Session not found"), w))
  ∧ (¬ owns w "media" r u →
       main.get_file storage_service r current_user w
       = (Raise (HTTPException 404 "File not found"), w)
       ∧ main.delete_file storage_service r current_user w
         = (Raise (HTTPException 404 "File not found"), w)).
Proof.
  intros Hkind u. split_and!.
  - destruct (user_owns_resource_total u r kind w Hkind) as (b & E & Hb).
    exists b. split_and!; [done..| |].
    + intros Hno. destruct b; [|done]. destruct Hno. exists u. by apply Hb.
    + intros _ Hno. destruct b; [|done]. destruct Hno. by apply Hb.
  - intros Hno. unfold main.get_session, bind.
    rewrite user_owns_resource_denied; [done|left|done].
  - intros Hno. unfold main.get_file, main.delete_file, bind.
    rewrite user_owns_resource_denied; [done|right; left|done].
Qed.

Lemma user_owns_resource_spec_witness :
  let w := world_one_session in
  let stranger := sample_user 2 "b@x.com" in
  main.get_session 10 stranger w = (Raise (HTTPException 404 "Session not found"), w)
  ∧ main.get_session 11 stranger w = (Raise (HTTPException 404 "Session not found"), w).
Proof.
  intros w stranger.
  assert (Hk : "session" ∈ ["session"; "media"; "conversation"]) by (left).
  split.
  - apply (user_owns_resource_spec local_storage stranger 10 "session" w Hk).
    intros [[_ (s & Hs & _ & Hu)]|[[? _]|[? _]]]; [|done..].
    apply list_elem_of_singleton in Hs as ->. done.
  - apply (user_owns_resource_spec local_storage stranger 11 "session" w Hk).
    intros [[_ (s & Hs & Hi & _)]|[[? _]|[? _]]]; [|done..].
    apply list_elem_of_singleton in Hs as ->. done.
Defined.

(** ** Session listing (C9) *)

Example world_two_sessions_eq :
  user_sessions world_two_sessions
  = [sample_session 10 1 100; sample_session 11 1 200].
Proof. vm_compute. reflexivity. Qed.

(** C9, as stated, fails: after two sessions created one after the other,
    the listing returns the older one first. *)
Lemma get_user_sessions_not_descending :
  ¬ (∀ (u : ObjectId) (w : World),
       ∃ l, UserService.get_user_sessions u w = (Return l, w)
            ∧ (∀ s, s ∈ l ↔ s ∈ user_sessions w ∧ UserSession.user_id s = u)
            ∧ created_at_descending l).
Proof.
  intros H. destruct (H 1%N world_two_sessions) as (l & E & _ & Hdesc).
  assert (l = [sample_session 10 1 100; sample_session 11 1 200]) as ->.
  { vm_compute in E. by injection E as <-. }
  specialize (Hdesc 0%nat 1%nat _ _ eq_refl eq_refl). simpl in Hdesc. lia.
Qed.

(** C9, amended. The listing returns exactly the sessions whose [user_id]
    is the requester's, each as often as stored and in the order in which
    the collection holds them; no ordering by [created_at] is applied. *)
Theorem get_user_sessions_spec (current_user : UserDB.t) (w : World) :
  let u := UserDB.id current_user in
  ∃ l, UserService.get_user_sessions u w = (Return l, w)
       ∧ main.get_user_sessions current_user w = (Return l, w)
       ∧ (∀ s, s ∈ l ↔ s ∈ user_sessions w ∧ UserSession.user_id s = u)
       ∧ l `sublist_of` user_sessions w
       ∧ (∀ s, UserSession.user_id s = u →
            length (filter (s =.) l) = length (filter (s =.) (user_sessions w))).
Proof.
  intros u.
  exists (filter (λ s, UserSession.user_id s = u) (user_sessions w)).
  split_and!; [done..| | |].
  - intros s. rewrite list_elem_of_filter. tauto.
  - apply sublist_filter.
  - intros s Hs. rewrite list_filter_filter. f_equal.
    apply list_filter_iff. intros x. split; [tauto|]. intros <-. done.
Qed.

(** ** File deletion (C7, C10) *)

Lemma unique_ids_inj {K A : Type} (doc_id : A → K) (c : list A) (x y : A) :
  unique_ids doc_id c → x ∈ c → y ∈ c → doc_id x = doc_id y → x = y.
Proof.
  unfold unique_ids. induction c as [|z c IH]; csimpl; [by intros _ ?%elem_of_nil|].
  rewrite NoDup_cons, !elem_of_cons. intros [Hz Hc] [->|Hx] [->|Hy] E; auto.
  - destruct Hz. rewrite E. by apply list_elem_of_fmap_2.
  - destruct Hz. rewrite <- E. by apply list_elem_of_fmap_2.
Qed.

Lemma user_owns_resource_granted u r kind w :
  owns w kind r u →
  UserService.user_owns_resource u r kind w = (Return true, w).
Proof.
  intros Ho.
  assert (kind ∈ ["session"; "media"; "conversation"]) as Hk.
  { rewrite !elem_of_cons. destruct Ho as [[-> _]|[[-> _]|[-> _]]]; auto. }
  destruct (user_owns_resource_total u r kind w Hk) as ([] & E & Hb); [done|].
  apply Hb in Ho. done.
Qed.

(** The record that the endpoint loads for an owned file. *)
Lemma MediaFile_get_owned u f w :
  owns w "media" f u → unique_ids MediaFile.id (media_files w) →
  ∃ mf, MediaFile_get f w = (Return (Some mf), w)
        ∧ mf ∈ media_files w ∧ MediaFile.id mf = f ∧ MediaFile.user_id mf = u.
Proof.
  intros [[? _]|[[_ (f0 & Hf0 & Hid & Hu)]|[? _]]] Huniq; [done| |done].
  unfold MediaFile_get, get. run.
  destruct (find_one (λ d, MediaFile.id d = f) (media_files w)) as [mf|] eqn:E.
  - apply find_one_Some in E as [Hmf Hidmf]. exists mf. split_and!; [done..|].
    rewrite (unique_ids_inj MediaFile.id (media_files w) mf f0); [done..|congruence].
  - rewrite find_one_None in E. by destruct (E f0 Hf0).
Qed.

Lemma set_blobs_difference_absent path w :
  path ∉ blobs w → set_blobs (λ b, b ∖ {[path]}) w = w.
Proof.
  intros Hp. destruct w as [us ss ms cs ps bs fl]. unfold set_blobs. simpl in *.
  f_equal. set_solver.
Qed.

(** Without a backend fault, on a supported backend, the path is gone
    after the call, whether it was there ([true]) or not. *)
Lemma storage_delete_file_done (self : StorageService.t) path w :
  StorageService.storage_type self ∈ ["local"; "s3"] →
  blob_delete_fails (faults w) = false →
  ∃ b, StorageService.delete_file self path w
       = (Return (Some b), set_blobs (λ b, b ∖ {[path]}) w).
Proof.
  rewrite !elem_of_cons, elem_of_nil. intros [E|[E|[]]] Hf;
    unfold StorageService.delete_file, StorageService.os_remove,
      StorageService.s3_delete_object; rewrite E; run; rewrite Hf.
  - destruct (decide (path ∈ blobs w)); simpl.
    + by exists true.
    + exists false. by rewrite set_blobs_difference_absent.
  - by exists true.
Qed.



(** C7. A requester who does not own a media file with the given id
    (none exists, or it is someone else's) gets 404 and the world, blob
    and metadata included, is unchanged.  For the owner, on a supported
    backend that does not fail, the blob is deleted first and the metadata
    record after it: when both steps succeed neither is left, and when the
    metadata delete raises the blob stays deleted and the record stays. *)
Theorem delete_file_spec
    (storage_service : StorageService.t) (current_user : UserDB.t)
    (f : ObjectId) (w : World) :
  let u := UserDB.id current_user in
  (¬ owns w "media" f u →
     main.delete_file storage_service f current_user w
     = (Raise (HTTPException 404 "File not found"), w))
  ∧ (owns w "media" f u →
     unique_ids MediaFile.id (media_files w) →
     StorageService.storage_type storage_service ∈ ["local"; "s3"] →
     blob_delete_fails (faults w) = false →
     ∃ mf, mf ∈ media_files w ∧ MediaFile.id mf = f ∧ MediaFile.user_id mf = u
       ∧ (media_delete_fails (faults w) = false →
            ∃ w', main.delete_file storage_service f current_user w
                  = (Return "File deleted successfully", w')
              ∧ blobs w' = blobs w ∖ {[ (MediaFile.file_path mf) ]}
              ∧ media_files w' = delete_one MediaFile.id f (media_files w)
              ∧ (MediaFile.file_path mf ∉ blobs w')
              ∧ ∀ x, x ∈ media_files w' → MediaFile.id x ≠ f)
       ∧ (media_delete_fails (faults w) = true →
            ∃ w', main.delete_file storage_service f current_user w
                  = (Raise PyMongoError, w')
              ∧ blobs w' = blobs w ∖ {[ (MediaFile.file_path mf) ]}
              ∧ (MediaFile.file_path mf ∉ blobs w')
              ∧ media_files w' = media_files w)).
Proof.
  cbv zeta. split.
  - intros Hno. unfold main.delete_file, bind.
    rewrite user_owns_resource_denied; [done|right; left|done].
  - intros Ho Huniq Hst Hblob.
    destruct (MediaFile_get_owned _ f w Ho Huniq) as (mf & Eget & Hmf & Hid & Hu).
    destruct (storage_delete_file_done storage_service
                (MediaFile.file_path mf) w Hst Hblob) as (b & Edel).
    exists mf. split_and!; [done..| |]; intros Hmd;
      unfold main.delete_file, bind, MediaFile_delete; cbv beta;
      rewrite (user_owns_resource_granted _ f "media" w Ho); cbn [negb];
      rewrite Eget; cbv beta iota; rewrite Edel; simpl; rewrite Hmd;
      eexists; (split; [done|]); simpl.
    + split_and!; [done|by rewrite Hid|set_solver|].
      intros x Hx. rewrite <- Hid. eapply delete_one_unique; [|exact Hx]. done.
    + split_and!; [done|set_solver|done].
Qed.

Lemma world_one_file_owned : owns world_one_file "media" 20 1.
Proof.
  right; left. split; [done|]. eexists. split; [by apply list_elem_of_singleton|done].
Qed.

Lemma world_one_file_unique : unique_ids MediaFile.id (media_files world_one_file).
Proof. apply NoDup_singleton. Qed.

Lemma delete_file_spec_witness :
  (∃ w', main.delete_file local_storage 20 (sample_user 1 "a@x.com") world_one_file
         = (Return "File deleted successfully", w')
       ∧ media_files w' = [] ∧ "storage/users/1/uploads/a.mp4" ∉ blobs w')
  ∧ main.delete_file local_storage 20 (sample_user 2 "b@x.com") world_one_file
    = (Raise (HTTPException 404 "File not found"), world_one_file).
Proof.
  split.
  - destruct (delete_file_spec local_storage (sample_user 1 "a@x.com") 20 world_one_file)
      as [_ Hown].
    destruct (Hown world_one_file_owned world_one_file_unique
                ltac:(left) eq_refl) as (mf & Hmf & _ & _ & Hok & _).
    apply list_elem_of_singleton in Hmf as ->.
    destruct (Hok eq_refl) as (w' & E & _ & Hm & Hb & _).
    exists w'. split_and!; [exact E|exact Hm|exact Hb].
  - apply (delete_file_spec local_storage (sample_user 2 "b@x.com") 20 world_one_file).
    intros [[? _]|[[_ (x & Hx & _ & Hu)]|[? _]]]; [done| |done].
    apply list_elem_of_singleton in Hx as ->. done.
Defined.



(** ** Default preferences as a side effect (C5) *)

(** Creating the default preferences touches the preferences collection
    only. *)
Lemma create_user_preferences_frame new_id now user_id w :
  ∃ r w', UserManager.create_user_preferences new_id now user_id w = (r, w')
          ∧ users w' = users w ∧ blobs w' = blobs w ∧ faults w' = faults w
          ∧ media_files w' = media_files w ∧ user_sessions w' = user_sessions w.
Proof.
  unfold UserManager.create_user_preferences, UserPreferences_find_one,
    UserPreferences_insert, Exception. run.
  destruct (prefs_find_fails (faults w)); [by eexists _, _|].
  destruct (find_one _ _); [by eexists _, _|].
  destruct (prefs_insert_fails (faults w)); [by eexists _, _|].
  destruct (insert _ _ _); by eexists _, _.
Qed.

(** A failing store makes it raise: the [except] clause re-raises. *)
Lemma create_user_preferences_raises new_id now user_id w :
  prefs_find_fails (faults w) = true →
  UserManager.create_user_preferences new_id now user_id w = (Raise PyMongoError, w).
Proof.
  intros Hf. unfold UserManager.create_user_preferences, UserPreferences_find_one.
  run. by rewrite Hf.
Qed.

(** [on_after_register] returns whatever happens to the preferences. *)
Lemma on_after_register_returns new_id now user w :
  ∃ w', UserManager.on_after_register new_id now user w = (Return tt, w')
        ∧ users w' = users w.
Proof.
  unfold UserManager.on_after_register, try_except, Exception.
  destruct (create_user_preferences_frame new_id now (UserDB.id user) w)
    as (r & w' & -> & Hu & _).
  destruct r as [[]|e]; by exists w'.
Qed.

(** C5. Registration keeps the promise: [on_after_register] returns on
    every world, and a registration on a world whose preferences store is
    down still returns the new user.  The OAuth path does not: on the same
    world a first Google sign-in inserts the user and then raises what
    [create_user_preferences] raised, which [google_callback] turns into
    a 400. *)
Theorem preferences_failure_propagation :
  (∀ new_id now user w,
     ∃ w', UserManager.on_after_register new_id now user w = (Return tt, w'))
  ∧ (∀ hash,
       ∃ w', main.register hash 1 2 100
               (UserCreate.mk "ada@x.com" "pw" true false false None "interviewee")
               world_prefs_down
             = (Return (UserRead.mk 1 "ada@x.com" true false false None None
                          "interviewee" 100), w'))
  ∧ UserManager.oauth_callback 1 2 100 "google" "token" "sub-1" "ada@x.com"
      google_profile world_prefs_down
    = (Raise PyMongoError, set_users (λ _, [ada_from_google]) world_prefs_down)
  ∧ (∃ detail,
       main.google_callback 1 2 100 "token"
         (Some (main.Build_UserInfo "sub-1" "ada@x.com" (Some "Ada")
                  (Some "https://img/ada.png")))
         world_prefs_down
       = (Raise (HTTPException 400 detail),
          set_users (λ _, [ada_from_google]) world_prefs_down)).
Proof.
  split_and!.
  - intros. destruct (on_after_register_returns new_id now user w) as (w' & E & _).
    eauto.
  - intros hash. eexists. vm_compute. reflexivity.
  - vm_compute. reflexivity.
  - eexists. vm_compute. reflexivity.
Qed.

(** ** OAuth identity resolution (C2, C3) *)

Section OAuthCallback.
Variables (new_user_id new_prefs_id : ObjectId) (now : datetime).
Variables (access_token account_id account_email : string).
Variable kwargs : gmap string string.

Local Notation callback oauth_name :=
  (UserManager.oauth_callback new_user_id new_prefs_id now
     oauth_name access_token account_id account_email kwargs).
Local Notation new_user :=
  (new_google_user new_user_id now account_id account_email kwargs).

Lemma oauth_callback_other_provider oauth_name w :
  oauth_name ≠ "google" → callback oauth_name w = (Return None, w).
Proof.
  intros Hne. unfold UserManager.oauth_callback.
  by rewrite decide_False.
Qed.

Lemma oauth_callback_by_google_id user w :
  find_one (λ u, UserDB.google_id u = Some account_id) (users w) = Some user →
  callback "google" w = (Return (Some user), w).
Proof.
  intros E. unfold UserManager.oauth_callback, UserDB_find_one. run.
  by rewrite E.
Qed.

Lemma oauth_callback_by_email user w :
  find_one (λ u, UserDB.google_id u = Some account_id) (users w) = None →
  find_one (λ u, UserDB.email u = account_email) (users w) = Some user →
  ∃ user', linked now account_id kwargs user user'
    ∧ callback "google" w
      = (Return (Some user'), set_users (replace_one UserDB.id user') w).
Proof.
  intros E1 E2. unfold UserManager.oauth_callback, UserDB_find_one,
    UserDB_save. run. rewrite E1, E2. simpl.
  eexists. split; cycle 1.
  - f_equal. unfold set_users. f_equal. unfold save. rewrite decide_True; [done|].
    apply find_one_Some in E2 as [Hin _]. apply Exists_exists. eauto.
  - by repeat split.
Qed.

Lemma oauth_callback_new_user w :
  find_one (λ u, UserDB.google_id u = Some account_id) (users w) = None →
  find_one (λ u, UserDB.email u = account_email) (users w) = None →
  (∀ u, u ∈ users w → UserDB.id u ≠ new_user_id) →
  ∃ r w', callback "google" w = (r, w')
    ∧ users w' = users w ++ [new_user]
    ∧ (r = Return (Some new_user) ∨ ∃ e, r = Raise e)
    ∧ (prefs_find_fails (faults w) = false →
       prefs_insert_fails (faults w) = false →
       (∀ p, p ∈ user_preferences w → UserPreferences.id p ≠ VOid new_prefs_id) →
       r = Return (Some new_user)).
Proof.
  intros E1 E2 Hfresh.
  unfold UserManager.oauth_callback, UserDB_find_one, UserDB_insert.
  rewrite decide_True by done.
  unfold bind, gets. cbv beta. rewrite E1. cbv beta iota. rewrite E2. cbv beta iota.
  unfold insert. rewrite decide_False; cycle 1.
  { rewrite Exists_exists. intros (u & Hu & Hid). by eapply Hfresh. }
  fold (new_google_user new_user_id now account_id account_email kwargs). unfold ret.
  unfold UserManager.create_user_preferences, UserPreferences_find_one,
    UserPreferences_insert, try_except, bind, ret, raise, Exception. simpl.
  destruct (prefs_find_fails (faults w)) eqn:Hf1.
  { eexists _, _. split_and!; [reflexivity|reflexivity|eauto|done]. }
  destruct (find_one _ (user_preferences w)) eqn:Hp.
  { eexists _, _. split_and!; [reflexivity|reflexivity|eauto|done]. }
  simpl. destruct (prefs_insert_fails (faults w)) eqn:Hf2.
  { eexists _, _. split_and!; [reflexivity|reflexivity|eauto|done]. }
  unfold insert. destruct (decide _) as [Hex|Hnex].
  - eexists _, _. split_and!; [reflexivity|reflexivity|eauto|].
    intros _ _ Hfreshp. apply Exists_exists in Hex as (p & Hin & Hid).
    by destruct (Hfreshp p Hin).
  - eexists _, _. split_and!; [reflexivity|reflexivity|eauto|done].
Qed.
End OAuthCallback.




Lemma find_one_replace_one {K A : Type} `{EqDecision K} (doc_id : A → K)
    (P : A → Prop) `{∀ x, Decision (P x)} (d : A) (c : list A) :
  (∀ x, x ∈ c → ¬ P x) → P d → Exists (λ x, doc_id x = doc_id d) c →
  find_one P (replace_one doc_id d c) = Some d.
Proof.
  intros Hno Hd Hex. induction Hex as [x c Hx|x c _ IH]; simpl.
  - rewrite decide_True by done. rewrite find_one_cons. by rewrite decide_True.
  - destruct (decide (doc_id x = doc_id d)).
    + rewrite find_one_cons. by rewrite decide_True.
    + rewrite find_one_cons, decide_False.
      * apply IH. intros y Hy. apply Hno. by right.
      * apply Hno. by left.
Qed.

(** When the identifier drawn for the new user is already taken the
    insertion is refused and nothing changes. *)
Lemma oauth_callback_new_user_collision
    new_user_id new_prefs_id now access_token account_id account_email kwargs w :
  find_one (λ u, UserDB.google_id u = Some account_id) (users w) = None →
  find_one (λ u, UserDB.email u = account_email) (users w) = None →
  (∃ u, u ∈ users w ∧ UserDB.id u = new_user_id) →
  UserManager.oauth_callback new_user_id new_prefs_id now
    "google" access_token account_id account_email kwargs w
  = (Raise DuplicateKeyError, w).
Proof.
  intros E1 E2 Hex.
  unfold UserManager.oauth_callback, UserDB_find_one, UserDB_insert.
  rewrite decide_True by done.
  unfold bind, gets. cbv beta. rewrite E1. cbv beta iota. rewrite E2. cbv beta iota.
  unfold insert. rewrite decide_True; [done|]. by apply Exists_exists.
Qed.

(** C3. Whenever a callback returns, the same callback repeated on the
    resulting store (whatever ids and clock the second call draws)
    returns the same user and changes nothing, so no second record is
    created.  When no user has the Google id and some user has the email,
    the first call links that account: the number of users is unchanged,
    and it is that user, now carrying the Google id, that both calls
    return. *)
Theorem oauth_callback_idempotent
    (new_user_id new_prefs_id new_user_id' new_prefs_id' : ObjectId)
    (now now' : datetime)
    (oauth_name access_token account_id account_email : string)
    (kwargs : gmap string string) (w : World) :
  let first :=
    UserManager.oauth_callback new_user_id new_prefs_id now
      oauth_name access_token account_id account_email kwargs w in
  let second :=
    UserManager.oauth_callback new_user_id' new_prefs_id' now'
      oauth_name access_token account_id account_email kwargs first.2 in
  (∀ x, first.1 = Return x → second = (Return x, first.2))
  ∧ (oauth_name = "google" →
     (∀ u, u ∈ users w → UserDB.google_id u ≠ Some account_id) →
     (∃ u, u ∈ users w ∧ UserDB.email u = account_email) →
     ∃ user user',
       user ∈ users w ∧ UserDB.email user = account_email
       ∧ UserDB.id user' = UserDB.id user
       ∧ UserDB.hashed_password user' = UserDB.hashed_password user
       ∧ UserDB.google_id user' = Some account_id
       ∧ first.1 = Return (Some user')
       ∧ second.1 = Return (Some user')
       ∧ user' ∈ users first.2
       ∧ length (users first.2) = length (users w)
       ∧ length (users second.2) = length (users w)).
Proof.
  intros first second.
  assert (∀ x, first.1 = Return x → second = (Return x, first.2)) as Hidem.
  { subst first second. intros x.
    destruct (decide (oauth_name = "google")) as [->|Hne]; cycle 1.
    { rewrite !oauth_callback_other_provider by done. simpl. by intros [= <-]. }
    destruct (find_one (λ u, UserDB.google_id u = Some account_id) (users w))
      as [user|] eqn:E1.
    { rewrite (oauth_callback_by_google_id _ _ _ _ _ _ _ user w E1). simpl.
      intros [= <-]. by apply oauth_callback_by_google_id. }
    destruct (find_one (λ u, UserDB.email u = account_email) (users w))
      as [user|] eqn:E2.
    { destruct (oauth_callback_by_email new_user_id new_prefs_id now access_token
                  account_id account_email kwargs user w E1 E2) as (user' & Hl & E).
      rewrite E. simpl. intros [= <-]. apply oauth_callback_by_google_id. simpl.
      apply find_one_replace_one.
      - by apply (find_one_None (λ u, UserDB.google_id u = Some account_id)).
      - apply Hl.
      - apply find_one_Some in E2 as [Hin _]. apply Exists_exists.
        exists user. split; [done|]. symmetry. apply Hl. }
    destruct (decide (Exists (λ u, UserDB.id u = new_user_id) (users w)))
      as [Hex|Hfresh].
    { rewrite oauth_callback_new_user_collision; [done..|]. by apply Exists_exists. }
    destruct (oauth_callback_new_user new_user_id new_prefs_id now access_token
                account_id account_email kwargs w E1 E2)
      as (r & w' & E & Hu & [->|[e ->]] & _).
    { intros u Hu Hid. apply Hfresh. apply Exists_exists. eauto. }
    - rewrite E. simpl. intros [= <-]. apply oauth_callback_by_google_id.
      rewrite Hu. rewrite find_one_app_r by done. rewrite find_one_cons.
      by rewrite decide_True.
    - rewrite E. done. }
  split; [exact Hidem|].
  intros -> Hno Hex.
  assert (find_one (λ u, UserDB.google_id u = Some account_id) (users w) = None) as E1.
  { apply find_one_None. auto. }
  apply (find_one_is_Some (λ u, UserDB.email u = account_email)) in Hex.
  destruct (find_one (λ u, UserDB.email u = account_email) (users w))
    as [user|] eqn:E2; [|done].
  destruct (oauth_callback_by_email new_user_id new_prefs_id now access_token
              account_id account_email kwargs user w E1 E2) as (user' & Hl & E).
  pose proof (find_one_Some _ _ _ E2) as [Hin Hmail].
  fold first in E.
  assert (first.1 = Return (Some user')) as Efst by (by rewrite E).
  pose proof (Hidem _ Efst) as Esnd.
  exists user, user'. rewrite Esnd, E. simpl.
  split_and!; [done|done|apply Hl|apply Hl|apply Hl|done|done| |
               apply length_replace_one|apply length_replace_one].
  apply replace_one_elem_of. apply Exists_exists. exists user. split; [done|].
  symmetry. apply Hl.
Qed.

Lemma oauth_callback_idempotent_witness :
  let first :=
    UserManager.oauth_callback 2 3 100 "google" "token" "sub-1" "ada@x.com"
      google_profile world_password_account in
  let second :=
    UserManager.oauth_callback 4 5 200 "google" "token" "sub-1" "ada@x.com"
      google_profile first.2 in
  ∃ user', first.1 = Return (Some user') ∧ second = (Return (Some user'), first.2)
           ∧ UserDB.id user' = 1%N ∧ length (users second.2) = 1%nat.
Proof.
  intros first second.
  destruct (oauth_callback_idempotent 2 3 4 5 100 200 "google" "token" "sub-1"
              "ada@x.com" google_profile world_password_account) as [Hidem Hlink].
  destruct (Hlink eq_refl) as (user & user' & Hin & _ & Hid & _ & _ & E1 & _ & _ & _ & Hlen).
  - intros u ->%list_elem_of_singleton. done.
  - eexists. split; [by apply list_elem_of_singleton|done].
  - apply list_elem_of_singleton in Hin as ->.
    exists user'. split_and!; [exact E1|exact (Hidem _ E1)|exact Hid|exact Hlen].
Defined.

(** ** Preferences: one record per user (C8) *)

Lemma setattr_user_id p key v :
  key ≠ "user_id" →
  UserPreferences.user_id (UserPreferences.setattr p key v) = UserPreferences.user_id p.
Proof.
  intros Hk. unfold UserPreferences.setattr. repeat case_decide; done.
Qed.

Lemma setattr_id p key v :
  key ≠ "id" →
  UserPreferences.id (UserPreferences.setattr p key v) = UserPreferences.id p.
Proof.
  intros Hk. unfold UserPreferences.setattr. repeat case_decide; done.
Qed.

Lemma assign_all_identity p items :
  (∀ kv, kv ∈ items → kv.1 ≠ "user_id" ∧ kv.1 ≠ "id") →
  UserPreferences.user_id (UserService.assign_all p items) = UserPreferences.user_id p
  ∧ UserPreferences.id (UserService.assign_all p items) = UserPreferences.id p.
Proof.
  unfold UserService.assign_all. revert p.
  induction items as [|[k v] items IH]; intros p Hk; simpl; [done|].
  destruct (Hk (k, v)) as [Hu Hi]; [left|]. simpl in *.
  destruct (IH (if UserPreferences.hasattr k then UserPreferences.setattr p k v else p))
    as [-> ->].
  { intros kv Hkv. apply Hk. by right. }
  destruct (UserPreferences.hasattr k); [|done].
  by rewrite setattr_user_id, setattr_id.
Qed.

Lemma construct_user_id validate new_id now u data p :
  UserService.construct validate new_id now u data = Return p →
  UserPreferences.user_id p = VOid u.
Proof.
  unfold UserService.construct. case_decide; [done|].
  assert (∀ fs acc,
            Forall (λ f, f ≠ "user_id") fs →
            (∀ q, acc = Return q → UserPreferences.user_id q = VOid u) →
            foldl (UserService.construct_field validate data) acc fs = Return p →
            UserPreferences.user_id p = VOid u) as Hfold.
  { induction fs as [|f fs IH]; intros acc Hfs Hacc; simpl; [by apply Hacc|].
    apply Forall_cons in Hfs as [Hf Hfs]. apply IH; [done|].
    intros q. unfold UserService.construct_field.
    destruct acc as [q0|]; [|done].
    destruct (data !! f); [|by apply Hacc].
    destruct (validate f v); [|done].
    intros [= <-]. rewrite setattr_user_id by done. by apply Hacc. }
  apply Hfold.
  - apply Forall_forall. intros f Hf. by apply list_elem_of_filter in Hf as [? _].
  - by intros q [= <-].
Qed.

(** Saving a record in place of the stored one with the same id and
    owner leaves the owners of the collection as they were. *)
Lemma replace_one_owners p p' prefs :
  unique_ids UserPreferences.id prefs → p ∈ prefs →
  UserPreferences.id p' = UserPreferences.id p →
  UserPreferences.user_id p' = UserPreferences.user_id p →
  UserPreferences.user_id <$> replace_one UserPreferences.id p' prefs
  = UserPreferences.user_id <$> prefs.
Proof.
  intros Huniq Hin Hid Hu. induction prefs as [|d prefs IH]; [done|].
  simpl. destruct (decide (UserPreferences.id d = UserPreferences.id p')) as [E|Hne].
  - csimpl. f_equal. rewrite Hu. f_equal.
    apply (unique_ids_inj UserPreferences.id (d :: prefs)); [done|done|left|congruence].
  - csimpl. f_equal. apply IH.
    + unfold unique_ids in *. csimpl in Huniq. by apply NoDup_cons in Huniq as [_ ?].
    + apply elem_of_cons in Hin as [->|Hin]; [|done]. by destruct Hne.
Qed.

(** Appending the first record of a user keeps the invariant. *)
Lemma at_most_one_append p u prefs :
  at_most_one_per_user prefs →
  UserPreferences.user_id p = VOid u →
  find_one (λ q, UserPreferences.user_id q = VOid u) prefs = None →
  at_most_one_per_user (prefs ++ [p]).
Proof.
  intros Hinv Hp Hnone u0. rewrite fmap_app, filter_app, length_app. csimpl.
  rewrite Hp. destruct (decide (u0 = u)) as [->|Hne].
  - rewrite filter_cons_True by done. simpl.
    assert (filter (λ v, v = VOid u) (UserPreferences.user_id <$> prefs) = []) as ->; [|done].
    rewrite find_one_None in Hnone.
    induction prefs as [|d prefs IH]; [done|]. csimpl.
    rewrite filter_cons_False.
    + apply IH.
      * intros u1. specialize (Hinv u1). csimpl in Hinv. rewrite filter_cons in Hinv.
        destruct (decide _); simpl in *; lia.
      * intros q Hq. apply Hnone. by right.
    + apply Hnone. left.
  - rewrite filter_cons_False by congruence. simpl. specialize (Hinv u0). lia.
Qed.

Lemma get_user_preferences_wf new_id now u w :
  prefs_wf w → prefs_wf (UserService.get_user_preferences new_id now u w).2.
Proof.
  intros [Huniq Hinv].
  unfold UserService.get_user_preferences, UserPreferences_find_one,
    UserPreferences_insert, bind, ret.
  destruct (prefs_find_fails (faults w)); [done|].
  destruct (find_one _ (user_preferences w)) as [p|] eqn:E; [done|].
  destruct (prefs_insert_fails (faults w)); [done|].
  destruct (insert _ _ _) as [c|] eqn:Ei; [|done]. simpl. split.
  - by eapply unique_ids_insert.
  - unfold insert in Ei. case_decide; [done|]. injection Ei as <-.
    by eapply at_most_one_append.
Qed.

Lemma update_user_preferences_wf validate new_id now u data w :
  data !! "user_id" = None → data !! "id" = None →
  prefs_wf w →
  prefs_wf (UserService.update_user_preferences validate new_id now u data w).2.
Proof.
  intros Hku Hki [Huniq Hinv].
  unfold UserService.update_user_preferences, UserPreferences_find_one,
    UserPreferences_insert, UserPreferences_save, bind, ret, raise, modify.
  destruct (prefs_find_fails (faults w)); [done|].
  destruct (find_one _ (user_preferences w)) as [p|] eqn:E.
  - simpl. apply find_one_Some in E as [Hin Hu].
    set (p' := UserPreferences.setattr _ "updated_at" _).
    destruct (assign_all_identity p (map_to_list data)) as [Eu Ei].
    { intros [k v] Hkv%elem_of_map_to_list. simpl. split; congruence. }
    assert (UserPreferences.user_id p' = UserPreferences.user_id p) as Hu'.
    { unfold p'. by rewrite setattr_user_id. }
    assert (UserPreferences.id p' = UserPreferences.id p) as Hi'.
    { unfold p'. by rewrite setattr_id. }
    split; simpl; [by apply unique_ids_save|].
    unfold save. rewrite decide_True.
    + unfold at_most_one_per_user. by rewrite (replace_one_owners p p').
    + apply Exists_exists. eauto.
  - destruct (UserService.construct _ _ _ _ _) as [q|] eqn:Ec; [|done].
    destruct (prefs_insert_fails (faults w)); [done|].
    destruct (insert _ _ _) as [c|] eqn:Ei; [|done]. simpl. split.
    + by eapply unique_ids_insert.
    + unfold insert in Ei. case_decide; [done|]. injection Ei as <-.
      eapply at_most_one_append; [done| |done]. by eapply construct_user_id.
Qed.

Lemma world_two_prefs_wf : prefs_wf world_two_prefs.
Proof.
  split.
  - unfold unique_ids. simpl. apply NoDup_cons. split; [|apply NoDup_singleton].
    by intros ?%list_elem_of_singleton.
  - intros u. simpl. rewrite !filter_cons, filter_nil.
    repeat case_decide; simpl; try lia. congruence.
Qed.

(** C8, as stated, fails: an update whose dictionary carries [user_id]
    reassigns the caller's record, after which the other user has two. *)
Lemma update_user_preferences_breaks_invariant :
  ¬ (∀ validate new_id now u data w,
       prefs_wf w →
       at_most_one_per_user
         (user_preferences
            (UserService.update_user_preferences validate new_id now u data w).2)).
Proof.
  intros H.
  specialize (H accept_all 12%N 50 1%N {[ "user_id" := VOid 2 ]} world_two_prefs).
  specialize (H world_two_prefs_wf 2%N). vm_compute in H. lia.
Qed.

(** The same happens without naming another user: a string under the key
    [id] makes [save] insert a copy, and the caller has two records. *)
Example update_user_preferences_duplicates_by_id :
  let w' := (UserService.update_user_preferences accept_all 12 50 1
               {[ "id" := VStr "x" ]} world_two_prefs).2 in
  length (filter (λ p, UserPreferences.user_id p = VOid 1) (user_preferences w')) = 2%nat.
Proof. vm_compute. reflexivity. Qed.

(** The collection declares a plain index on [user_id], so a second record
    for the same user is accepted by the store itself. *)
Example user_id_index_not_unique :
  UserPreferences_Settings.indexes = [("user_id", 1, false)]
  ∧ insert UserPreferences.id (UserPreferences.default 11 1 0)
      [UserPreferences.default 10 1 0]
    = Some [UserPreferences.default 10 1 0; UserPreferences.default 11 1 0].
Proof. split; [reflexivity|]. vm_compute. reflexivity. Qed.

(** C8, amended. On a store in which no user has two records,
    [get_user_preferences] returns the existing record of the user,
    unchanged store, when there is one, and otherwise inserts exactly one
    default record and returns it; get-or-create, and update with a
    dictionary that has neither the key [user_id] nor the key [id], leave
    at most one record per user.  The invariant is kept by the lookup that
    precedes each insertion in a sequential run, not by a uniqueness
    constraint. *)
Theorem preferences_one_per_user
    (validate : string → value → option value)
    (new_id : ObjectId) (now : datetime) (u : ObjectId) (w : World) :
  prefs_wf w →
  let got := UserService.get_user_preferences new_id now u w in
  prefs_wf got.2
  ∧ (prefs_find_fails (faults w) = false →
     (∃ p, p ∈ user_preferences w ∧ UserPreferences.user_id p = VOid u) →
     ∃ p, got = (Return p, w)
          ∧ p ∈ user_preferences w ∧ UserPreferences.user_id p = VOid u)
  ∧ (prefs_find_fails (faults w) = false →
     prefs_insert_fails (faults w) = false →
     (∀ p, p ∈ user_preferences w → UserPreferences.user_id p ≠ VOid u) →
     (∀ p, p ∈ user_preferences w → UserPreferences.id p ≠ VOid new_id) →
     got = (Return (UserPreferences.default new_id u now),
            set_user_preferences
              (λ prefs, prefs ++ [UserPreferences.default new_id u now]) w))
  ∧ (∀ data : gmap string value,
       data !! "user_id" = None → data !! "id" = None →
       prefs_wf (UserService.update_user_preferences validate new_id now u data w).2).
Proof.
  intros Hwf got. split_and!.
  - by apply get_user_preferences_wf.
  - intros Hf Hex. apply (find_one_is_Some (λ p, UserPreferences.user_id p = VOid u)) in Hex.
    destruct (find_one _ (user_preferences w)) as [p|] eqn:E; [|done].
    exists p. split; [|by apply find_one_Some in E].
    subst got. unfold UserService.get_user_preferences, UserPreferences_find_one,
      bind, ret. by rewrite Hf, E.
  - intros Hf1 Hf2 Hnone Hfresh. subst got.
    unfold UserService.get_user_preferences, UserPreferences_find_one,
      UserPreferences_insert, bind, ret. rewrite Hf1.
    assert (find_one (λ p, UserPreferences.user_id p = VOid u) (user_preferences w)
            = None) as ->.
    { by apply find_one_None. }
    rewrite Hf2. unfold insert. rewrite decide_False; [done|].
    rewrite Exists_exists. intros (p & Hp & Hid). by eapply Hfresh.
  - intros data Hku Hki. by apply update_user_preferences_wf.
Qed.

Lemma preferences_one_per_user_witness :
  UserService.get_user_preferences 12 50 1 world_two_prefs
  = (Return (UserPreferences.default 10 1 0), world_two_prefs)
  ∧ UserService.get_user_preferences 12 50 3 world_two_prefs
    = (Return (UserPreferences.default 12 3 50),
       set_user_preferences (λ prefs, prefs ++ [UserPreferences.default 12 3 50])
         world_two_prefs)
  ∧ prefs_wf (UserService.update_user_preferences accept_all 12 50 1
                {[ "preferred_duration" := VInt 45 ]} world_two_prefs).2.
Proof.
  split_and!.
  - destruct (preferences_one_per_user accept_all 12 50 1 world_two_prefs
                world_two_prefs_wf) as (_ & Hget & _).
    destruct Hget as (p & E & _); [done| |].
    + eexists. split; [left|done].
    + rewrite E. vm_compute in E. by injection E as <-.
  - apply (preferences_one_per_user accept_all 12 50 3 world_two_prefs
             world_two_prefs_wf); [done..| |].
    + intros p. simpl. rewrite !elem_of_cons, elem_of_nil. by intros [->|[->|[]]].
    + intros p. simpl. rewrite !elem_of_cons, elem_of_nil. by intros [->|[->|[]]].
  - by apply (preferences_one_per_user accept_all 12 50 1 world_two_prefs
                world_two_prefs_wf).
Defined.

(** ** Token lifetime (C4) *)


(** ** Registration and duplicate emails (C6) *)

Section Register.
Variable hash : string → string.


End Register.

Example normalize_email_example :
  normalize_email "A@x.com" = "a@x.com" ∧ normalize_email " a@X.com " = "a@x.com".
Proof. split; vm_compute; reflexivity. Qed.

(** Under a case-insensitive collation the lookup would have found the
    first of the two addresses; the document class sets none. *)
Example collation_example :
  collate_eqb (Some CaseInsensitive) "A@x.com" "a@X.com" = true
  ∧ collate_eqb UserDB_Settings.email_collation "A@x.com" "a@X.com" = false.
Proof. split; vm_compute; reflexivity. Qed.




(** * Further properties of the code *)

(** ** Uploads ([validate_file], [save_file], [upload_file]) *)

Section UploadFacts.
Variable str_oid : ObjectId → string.
Variable parse_oid : string → option ObjectId.
Variable path_suffix : string → string.
Variable storage_service : StorageService.t.

Local Notation upload_file :=
  (Upload.upload_file str_oid parse_oid path_suffix storage_service).
Local Notation upload_body :=
  (Upload.upload_body str_oid parse_oid path_suffix storage_service).

(** X1. A file whose name does not end in an allowed extension is refused
    before anything is stored; the 400 raised for it is caught by the
    handler for [Exception], so the answer is a 500. *)
Theorem upload_invalid_type_is_500
    (new_id : ObjectId) (now : datetime) (file_id : string)
    (file : UploadFile.t) (session_id : option string)
    (current_user : UserDB.t) (w : World) :
  Upload.validate_file storage_service file = false →
  ∃ detail,
    upload_file new_id now file_id file session_id current_user w
    = (Raise (HTTPException 500 detail), w).
Proof.
  intros Hv. unfold Upload.upload_file, Upload.upload_body. rewrite Hv.
  by eexists.
Qed.


(** X3. With any other storage type nothing can be uploaded: the answer
    is a 400 naming the type and the store is unchanged. *)
Theorem upload_unsupported_storage_is_400
    (new_id : ObjectId) (now : datetime) (file_id : string)
    (file : UploadFile.t) (session_id : option string)
    (current_user : UserDB.t) (w : World) :
  Upload.validate_file storage_service file = true →
  StorageService.storage_type storage_service ∉ ["local"; "s3"] →
  upload_file new_id now file_id file session_id current_user w
  = (Raise (HTTPException 400
              ("Unsupported storage type: "
               +:+ StorageService.storage_type storage_service)), w).
Proof.
  intros Hv Hst.
  unfold Upload.upload_file, Upload.upload_body, Upload.save_file, ubind, uraise.
  rewrite Hv. simpl.
  rewrite decide_False by (intros E; apply Hst; rewrite E; left).
  rewrite decide_False by (intros E; apply Hst; rewrite E; right; left).
  done.
Qed.

Local Notation path_of file_id file session_id current_user :=
  (stored_path storage_service (str_oid (UserDB.id current_user)) file_id
     (path_suffix (UploadFile.filename file)) session_id).

(** What the body of [upload_file] has done when the metadata is known:
    the blob is written before the session id and the content type are
    looked at. *)
Lemma save_file_stores file_id file user_id session_id w :
  Upload.validate_file storage_service file = true →
  StorageService.storage_type storage_service ∈ ["local"; "s3"] →
  Z.of_nat (length (UploadFile.content file))
  ≤ StorageService.max_file_size storage_service →
  let path :=
    stored_path storage_service user_id file_id
      (path_suffix (UploadFile.filename file)) session_id in
  Upload.save_file path_suffix storage_service file_id file user_id session_id w
  = (inr {| FileMetadata.file_path := path;
            FileMetadata.file_size := Z.of_nat (length (UploadFile.content file));
            FileMetadata.mime_type := UploadFile.content_type file |},
     set_blobs (λ b, {[ path ]} ∪ b) w).
Proof.
  intros Hv Hst Hsize. unfold Upload.save_file, stored_path.
  rewrite Hv. cbn [negb].
  apply elem_of_cons in Hst as [E|Hst]; [|apply list_elem_of_singleton in Hst as E];
    rewrite E; simpl;
    unfold Upload._save_local, Upload._save_s3, ubind, uret, lift, modify;
    rewrite decide_False by lia; destruct session_id as [sid|];
    try destruct (decide (sid = "")); reflexivity.
Qed.

Lemma upload_file_ok
    (new_id : ObjectId) (now : datetime) (file_id : string)
    (file : UploadFile.t) (session_id : option string)
    (current_user : UserDB.t) (w : World)
    (content_type : string) (session : option ObjectId) :
  Upload.validate_file storage_service file = true →
  StorageService.storage_type storage_service ∈ ["local"; "s3"] →
  Z.of_nat (length (UploadFile.content file))
  ≤ StorageService.max_file_size storage_service →
  UploadFile.content_type file = Some content_type →
  resolve_session parse_oid session_id = Some session →
  (∀ f, f ∈ media_files w → MediaFile.id f ≠ new_id) →
  let path := path_of file_id file session_id current_user in
  upload_file new_id now file_id file session_id current_user w
  = (Return (Upload.Build_Uploaded (str_oid new_id) "File uploaded successfully" path),
     set_media_files
       (λ files, files ++ [uploaded_record new_id now (UserDB.id current_user)
                             session content_type path
                             (length (UploadFile.content file))])
       (set_blobs (λ b, {[ path ]} ∪ b) w)).
Proof.
  intros Hv Hst Hsize Hct Hsession Hfresh path.
  unfold Upload.upload_file, Upload.upload_body. rewrite Hv. cbn [negb].
  unfold ubind at 1. rewrite save_file_stores by done. fold path. cbv beta iota.
  assert (∀ k : option ObjectId → U Upload.Uploaded,
            ubind match session_id with
                  | Some sid =>
                      if decide (sid = "") then uret None
                      else match parse_oid sid with
                           | Some i => uret (Some i)
                           | None => uraise InvalidId
                           end
                  | None => uret None
                  end k
            = k session) as ->.
  { intros k. unfold resolve_session in Hsession.
    destruct session_id as [sid|]; [|by injection Hsession as <-].
    destruct (decide (sid = "")); [by injection Hsession as <-|].
    destruct (parse_oid sid); [by injection Hsession as <-|done]. }
  rewrite Hct. unfold ubind, uret, lift, Upload.MediaFile_insert, insert. simpl.
  rewrite decide_False; [done|].
  rewrite Exists_exists. intros (f & Hf & Hid). by eapply Hfresh.
Qed.



(** What a returning upload tells about the request. *)
Lemma upload_file_returns_inv new_id now file_id file session_id current_user w r w' :
  upload_file new_id now file_id file session_id current_user w = (Return r, w') →
  ∃ content_type session,
    Upload.validate_file storage_service file = true
    ∧ StorageService.storage_type storage_service ∈ ["local"; "s3"]
    ∧ Z.of_nat (length (UploadFile.content file))
      ≤ StorageService.max_file_size storage_service
    ∧ UploadFile.content_type file = Some content_type
    ∧ resolve_session parse_oid session_id = Some session
    ∧ (∀ f, f ∈ media_files w → MediaFile.id f ≠ new_id).
Proof.
  unfold Upload.upload_file, Upload.upload_body, Upload.save_file,
    Upload._save_local, Upload._save_s3, Upload.MediaFile_insert,
    resolve_session, ubind, uret, uraise, lift, modify, insert.
  destruct (Upload.validate_file storage_service file); [|done]. cbn [negb].
  assert (StorageService.storage_type storage_service ∈ ["local"; "s3"]
          ∨ StorageService.storage_type storage_service ∉ ["local"; "s3"]) as [Hst|Hst].
  { destruct (decide (StorageService.storage_type storage_service ∈ ["local"; "s3"]));
      auto. }
  2:{ rewrite decide_False by (intros E; apply Hst; rewrite E; left).
      rewrite decide_False by (intros E; apply Hst; rewrite E; right; left). done. }
  destruct (decide (StorageService.max_file_size storage_service
                    < Z.of_nat (length (UploadFile.content file)))) as [Hbig|Hok].
  { apply elem_of_cons in Hst as [E|Hst];
      [|apply list_elem_of_singleton in Hst as E]; rewrite E; simpl; done. }
  intros H.
  destruct (UploadFile.content_type file) as [ct|] eqn:Hct; cycle 1.
  { apply elem_of_cons in Hst as [E|Hst];
      [|apply list_elem_of_singleton in Hst as E]; rewrite E in H; simpl in H;
      destruct session_id as [sid|]; try destruct (decide (sid = ""));
      try destruct (parse_oid sid); done. }
  exists ct.
  assert (∃ session,
            match session_id with
            | Some sid => if decide (sid = "") then Some None else Some <$> parse_oid sid
            | None => Some None
            end = Some session
            ∧ ¬ Exists (λ d', MediaFile.id d' = new_id) (media_files w))
    as (session & Hs & Hfresh).
  { apply elem_of_cons in Hst as [E|Hst];
      [|apply list_elem_of_singleton in Hst as E]; rewrite E in H; simpl in H;
      destruct session_id as [sid|]; try destruct (decide (sid = ""));
      try destruct (parse_oid sid); simpl in H; try done;
      destruct (decide (Exists _ (media_files w))); try done; eauto. }
  exists session. split_and!; [done|done|lia|done|done|].
  intros f Hf Hid. apply Hfresh. apply Exists_exists. eauto.
Qed.

Lemma find_one_app_fresh {A : Type} (P : A → Prop) `{∀ x, Decision (P x)}
    (c : list A) (d : A) :
  (∀ x, x ∈ c → ¬ P x) → P d → find_one P (c ++ [d]) = Some d.
Proof.
  intros Hno Hd. rewrite find_one_app_r by (by apply find_one_None).
  rewrite find_one_cons. by rewrite decide_True.
Qed.

Lemma delete_one_app_fresh {K A : Type} `{EqDecision K} (doc_id : A → K)
    (c : list A) (d : A) :
  (∀ x, x ∈ c → doc_id x ≠ doc_id d) →
  delete_one doc_id (doc_id d) (c ++ [d]) = c.
Proof.
  induction c as [|x c IH]; intros Hfresh; simpl.
  - by rewrite decide_True.
  - rewrite decide_False by (apply Hfresh; left). f_equal. apply IH.
    intros y Hy. apply Hfresh. by right.
Qed.

(** A returning upload, spelled out. *)
Lemma upload_file_returns new_id now file_id file session_id current_user w r w' :
  upload_file new_id now file_id file session_id current_user w = (Return r, w') →
  ∃ content_type session,
    let path := path_of file_id file session_id current_user in
    let record :=
      uploaded_record new_id now (UserDB.id current_user) session content_type
        path (length (UploadFile.content file)) in
    UploadFile.content_type file = Some content_type
    ∧ (∀ f, f ∈ media_files w → MediaFile.id f ≠ new_id)
    ∧ StorageService.storage_type storage_service ∈ ["local"; "s3"]
    ∧ w' = set_media_files (λ files, files ++ [record])
             (set_blobs (λ b, {[ path ]} ∪ b) w).
Proof.
  intros E.
  destruct (upload_file_returns_inv _ _ _ _ _ _ _ _ _ E)
    as (ct & session & Hv & Hst & Hsize & Hct & Hs & Hfresh).
  exists ct, session. split_and!; [done..|].
  rewrite (upload_file_ok new_id now file_id file session_id current_user w ct session)
    in E by done.
  by injection E as _ <-.
Qed.

(** X6. After a successful upload the uploader reads the file back by the
    new id, with the byte count and the file type of the upload, and every
    other user gets a 404 for that id. *)
Theorem upload_then_get_file
    (new_id : ObjectId) (now : datetime) (file_id : string)
    (file : UploadFile.t) (session_id : option string)
    (current_user stranger : UserDB.t) (w w' : World) (r : Upload.Uploaded) :
  upload_file new_id now file_id file session_id current_user w = (Return r, w') →
  UserDB.id stranger ≠ UserDB.id current_user →
  (∃ info content_type,
     main.get_file storage_service new_id current_user w' = (Return info, w')
     ∧ main.file_id info = new_id
     ∧ main.info_file_size info = Some (Z.of_nat (length (UploadFile.content file)))
     ∧ UploadFile.content_type file = Some content_type
     ∧ main.info_file_type info
       = if startswith content_type "video" then "video" else "audio")
  ∧ main.get_file storage_service new_id stranger w'
    = (Raise (HTTPException 404 "File not found"), w').
Proof.
  intros E Hstranger.
  destruct (upload_file_returns _ _ _ _ _ _ _ _ _ E)
    as (ct & session & Hct & Hfresh & Hst & ->).
  set (path := path_of file_id file session_id current_user).
  set (record := uploaded_record new_id now (UserDB.id current_user) session ct path
                   (length (UploadFile.content file))).
  set (w' := set_media_files _ _). split.
  - assert (owns w' "media" new_id (UserDB.id current_user)) as Ho.
    { right; left. split; [done|]. exists record. split; [|done].
      simpl. apply elem_of_app. right. left. }
    assert (MediaFile_get new_id w' = (Return (Some record), w')) as Eget.
    { unfold MediaFile_get, get, gets. f_equal. f_equal. simpl.
      by apply find_one_app_fresh. }
    unfold main.get_file, bind. cbv beta.
    rewrite (user_owns_resource_granted _ new_id "media" w' Ho). cbn [negb].
    rewrite Eget. cbv beta iota.
    unfold StorageService.get_file_url, ret.
    repeat case_decide; eexists _, ct; split_and!; done.
  - unfold main.get_file, bind. cbv beta.
    rewrite user_owns_resource_denied; [done|right; left|].
    intros [[? _]|[[_ (f & Hf & Hid & Hu)]|[? _]]]; [done| |done].
    simpl in Hf. apply elem_of_app in Hf as [Hf|Hf].
    + by destruct (Hfresh f Hf).
    + apply list_elem_of_singleton in Hf as ->. simpl in Hu. congruence.
Qed.

(** X7. When the blob store and the metadata store do not fail and the
    path was not in use, deleting a file right after uploading it puts the
    whole store back as it was before the upload. *)
Theorem upload_then_delete_restores
    (new_id : ObjectId) (now : datetime) (file_id : string)
    (file : UploadFile.t) (session_id : option string)
    (current_user : UserDB.t) (w w' : World) (r : Upload.Uploaded) :
  upload_file new_id now file_id file session_id current_user w = (Return r, w') →
  blob_delete_fails (faults w) = false →
  media_delete_fails (faults w) = false →
  path_of file_id file session_id current_user ∉ blobs w →
  main.delete_file storage_service new_id current_user w'
  = (Return "File deleted successfully", w).
Proof.
  intros E Hblob Hmeta Hpath.
  destruct (upload_file_returns _ _ _ _ _ _ _ _ _ E)
    as (ct & session & Hct & Hfresh & Hst & ->).
  set (path := path_of file_id file session_id current_user) in *.
  set (record := uploaded_record new_id now (UserDB.id current_user) session ct path
                   (length (UploadFile.content file))).
  set (w' := set_media_files _ _).
  assert (owns w' "media" new_id (UserDB.id current_user)) as Ho.
  { right; left. split; [done|]. exists record. split; [|done].
    simpl. apply elem_of_app. right. left. }
  assert (MediaFile_get new_id w' = (Return (Some record), w')) as Eget.
  { unfold MediaFile_get, get, gets. f_equal. f_equal. simpl.
    by apply find_one_app_fresh. }
  destruct (storage_delete_file_done storage_service path w' Hst Hblob) as (b & Edel).
  unfold main.delete_file, bind, MediaFile_delete. cbv beta.
  rewrite (user_owns_resource_granted _ new_id "media" w' Ho). cbn [negb].
  rewrite Eget. cbv beta iota. change (MediaFile.file_path record) with path.
  rewrite Edel. simpl. rewrite Hmeta. f_equal.
  destruct w as [us ss ms cs ps bs fl]. unfold set_media_files, set_blobs. simpl in *.
  f_equal.
  - apply (delete_one_app_fresh MediaFile.id ms record). exact Hfresh.
  - set_solver.
Qed.
End UploadFacts.

Lemma upload_invalid_type_is_500_witness :
  ∃ detail,
    Upload.upload_file sample_str_oid sample_parse_oid sample_suffix
      (storage_of "local" 4) 30 100 "f1" (sample_upload "notes.txt" 1) None
      (sample_user 1 "a@x.com") empty_world
    = (Raise (HTTPException 500 detail), empty_world).
Proof.
  apply (upload_invalid_type_is_500 sample_str_oid sample_parse_oid sample_suffix
           (storage_of "local" 4)).
  reflexivity.
Defined.


Lemma upload_unsupported_storage_is_400_witness :
  Upload.upload_file sample_str_oid sample_parse_oid sample_suffix
    (storage_of "gcs" 4) 30 100 "f1" (sample_upload "clip.mp4" 4) None
    (sample_user 1 "a@x.com") empty_world
  = (Raise (HTTPException 400 ("Unsupported storage type: " +:+ "gcs")), empty_world).
Proof.
  apply (upload_unsupported_storage_is_400 sample_str_oid sample_parse_oid
           sample_suffix (storage_of "gcs" 4)).
  - reflexivity.
  - simpl. rewrite !elem_of_cons, elem_of_nil. intros [?|[?|[]]]; discriminate.
Defined.



Lemma upload_then_get_file_witness :
  let w' :=
    (Upload.upload_file sample_str_oid sample_parse_oid sample_suffix
       (storage_of "local" 4) 30 100 "f1" (sample_upload "clip.mp4" 4) None
       (sample_user 1 "a@x.com") empty_world).2 in
  main.get_file (storage_of "local" 4) 30 (sample_user 2 "b@x.com") w'
  = (Raise (HTTPException 404 "File not found"), w').
Proof.
  intros w'.
  apply (upload_then_get_file sample_str_oid sample_parse_oid sample_suffix
           (storage_of "local" 4) 30 100 "f1" (sample_upload "clip.mp4" 4) None
           (sample_user 1 "a@x.com") (sample_user 2 "b@x.com") empty_world w'
           (Upload.Build_Uploaded "30" "File uploaded successfully"
              "storage/users/1/uploads/f1.mp4")).
  - vm_compute. reflexivity.
  - discriminate.
Defined.

Lemma upload_then_delete_restores_witness :
  let w' :=
    (Upload.upload_file sample_str_oid sample_parse_oid sample_suffix
       (storage_of "s3" 4) 30 100 "f1" (sample_upload "clip.mp4" 4) None
       (sample_user 1 "a@x.com") empty_world).2 in
  main.delete_file (storage_of "s3" 4) 30 (sample_user 1 "a@x.com") w'
  = (Return "File deleted successfully", empty_world).
Proof.
  intros w'.
  apply (upload_then_delete_restores sample_str_oid sample_parse_oid sample_suffix
           (storage_of "s3" 4) 30 100 "f1" (sample_upload "clip.mp4" 4) None
           (sample_user 1 "a@x.com") empty_world w'
           (Upload.Build_Uploaded "30" "File uploaded successfully"
              "users/1/uploads/f1.mp4")).
  - vm_compute. reflexivity.
  - reflexivity.
  - reflexivity.
  - simpl. apply not_elem_of_empty.
Defined.

(** ** Listings and reads ([get_user_media_files], [create_user_session],
    [get_session], [get_file]) *)

(** X8. The file listing holds exactly the stored files of the requester
    (and of the given session, when one is given), in stored order: a
    session id that belongs to someone else never brings in a file of
    another user, and the filtered listing is part of the unfiltered
    one. *)
Theorem get_user_files_spec
    (session_id : option ObjectId) (current_user : UserDB.t) (w : World) :
  ∃ l all,
    main.get_user_files session_id current_user w = (Return l, w)
    ∧ main.get_user_files None current_user w = (Return all, w)
    ∧ (∀ f, f ∈ l ↔
            f ∈ media_files w ∧ MediaFile.user_id f = UserDB.id current_user
            ∧ ∀ s, session_id = Some s → MediaFile.session_id f = Some s)
    ∧ l `sublist_of` all
    ∧ all `sublist_of` media_files w.
Proof.
  unfold main.get_user_files, UserService.get_user_media_files, MediaFile_find,
    find, gets.
  destruct session_id as [sid|]; eexists _, _; split_and!; try reflexivity.
  - intros f. rewrite list_elem_of_filter. split.
    + intros [[Hu Hs] Hin]. split_and!; [done..|]. by intros s [= <-].
    + intros (Hin & Hu & Hs). split; [|done]. split; [done|]. by apply Hs.
  - assert (filter (λ f, MediaFile.user_id f = UserDB.id current_user
                         ∧ MediaFile.session_id f = Some sid) (media_files w)
            = filter (λ f, MediaFile.session_id f = Some sid)
                (filter (λ f, MediaFile.user_id f = UserDB.id current_user)
                   (media_files w))) as ->.
    { rewrite list_filter_filter. apply list_filter_iff. intros f. tauto. }
    apply sublist_filter.
  - apply sublist_filter.
  - intros f. rewrite list_elem_of_filter. split.
    + intros [Hu Hin]. split_and!; [done..|]. done.
    + intros (Hin & Hu & _). done.
  - apply sublist_filter.
Qed.

(** What a returning [create_user_session] has done. *)
Lemma create_user_session_returns new_id now u data w s w' :
  UserService.create_user_session new_id now u data w = (Return s, w') →
  UserSession.id s = new_id ∧ UserSession.user_id s = u
  ∧ UserSession.status s = "active"
  ∧ UserSession.created_at s = now ∧ UserSession.updated_at s = now
  ∧ data !! "session_name" = Some (VStr (UserSession.session_name s))
  ∧ data !! "session_type" = Some (VStr (UserSession.session_type s))
  ∧ (∀ x, x ∈ user_sessions w → UserSession.id x ≠ new_id)
  ∧ w' = set_user_sessions (λ c, c ++ [s]) w.
Proof.
  unfold UserService.create_user_session, UserSession_insert, insert, bind, ret, raise.
  destruct (data !! "session_name") as [[]|]; try done.
  destruct (data !! "session_type") as [[]|]; try done.
  assert (∀ x, ¬ Exists (λ d', UserSession.id d' = new_id) (user_sessions w) →
               x ∈ user_sessions w → UserSession.id x ≠ new_id) as Hfresh.
  { intros x Hno Hx Hid. apply Hno. apply Exists_exists. eauto. }
  destruct (data !! "metadata") as [[]|]; try done; simpl;
    (destruct (decide (Exists _ (user_sessions w))); [done|]);
    intros [= <- <-]; split_and!; try done; intros x; by apply Hfresh.
Qed.

(** X9. A session that has just been created is read back, as created, by
    its owner, and every other user gets a 404 for its id; it belongs to
    the creator, is active and carries the creation time. *)
Theorem create_session_then_get
    (new_id : ObjectId) (now : datetime) (session_data : gmap string value)
    (current_user stranger : UserDB.t) (w w' : World) (s : UserSession.t) :
  main.create_session new_id now session_data current_user w = (Return s, w') →
  UserDB.id stranger ≠ UserDB.id current_user →
  main.get_session (UserSession.id s) current_user w' = (Return (Some s), w')
  ∧ main.get_session (UserSession.id s) stranger w'
    = (Raise (HTTPException 404 "Session not found"), w')
  ∧ UserSession.user_id s = UserDB.id current_user
  ∧ UserSession.status s = "active"
  ∧ UserSession.created_at s = now.
Proof.
  intros E Hstranger. unfold main.create_session in E.
  destruct (create_user_session_returns _ _ _ _ _ _ _ E)
    as (Hid & Hu & Hst & Hc & _ & _ & _ & Hfresh & ->).
  split_and!; [| |done..].
  - assert (owns (set_user_sessions (λ c, c ++ [s]) w) "session" (UserSession.id s)
              (UserDB.id current_user)) as Ho.
    { left. split; [done|]. exists s. split; [|done].
      simpl. apply elem_of_app. right. left. }
    unfold main.get_session, bind. cbv beta.
    rewrite (user_owns_resource_granted _ _ "session" _ Ho). cbn [negb].
    unfold UserService.get_session_by_id, UserSession_get, get, gets. simpl.
    do 2 f_equal. apply find_one_app_fresh; [|done].
    intros x Hx. rewrite Hid. by apply Hfresh.
  - unfold main.get_session, bind. cbv beta.
    rewrite user_owns_resource_denied; [done|left|].
    intros [[_ (x & Hx & Hidx & Hux)]|[[? _]|[? _]]]; [|done..].
    simpl in Hx. apply elem_of_app in Hx as [Hx|Hx].
    + apply (Hfresh x Hx). congruence.
    + apply list_elem_of_singleton in Hx as ->. congruence.
Qed.

(** X10. Creating a session appends it to the creator's listing and leaves
    the listing of every other user as it was. *)
Theorem create_session_listing
    (new_id : ObjectId) (now : datetime) (session_data : gmap string value)
    (current_user other : UserDB.t) (w w' : World) (s : UserSession.t) :
  main.create_session new_id now session_data current_user w = (Return s, w') →
  ∃ before,
    main.get_user_sessions other w = (Return before, w)
    ∧ main.get_user_sessions other w'
      = (Return (if decide (UserDB.id other = UserDB.id current_user)
                 then before ++ [s] else before), w').
Proof.
  intros E. unfold main.create_session in E.
  destruct (create_user_session_returns _ _ _ _ _ _ _ E)
    as (_ & Hu & _ & _ & _ & _ & _ & _ & ->).
  eexists. split; [reflexivity|].
  unfold main.get_user_sessions, UserService.get_user_sessions, UserSession_find,
    find, gets. simpl. rewrite filter_app. f_equal. f_equal.
  rewrite filter_cons, filter_nil. rewrite Hu.
  destruct (decide (UserDB.id current_user = UserDB.id other));
    destruct (decide (UserDB.id other = UserDB.id current_user)); try congruence.
  by rewrite app_nil_r.
Qed.

Lemma create_session_then_get_witness :
  let w' := (main.create_session 10 100 sample_session_data
               (sample_user 1 "a@x.com") empty_world).2 in
  main.get_session 10 (sample_user 1 "a@x.com") w'
  = (Return (Some (sample_session 10 1 100)), w')
  ∧ main.get_session 10 (sample_user 2 "b@x.com") w'
    = (Raise (HTTPException 404 "Session not found"), w').
Proof.
  intros w'.
  destruct (create_session_then_get 10 100 sample_session_data
              (sample_user 1 "a@x.com") (sample_user 2 "b@x.com") empty_world w'
              (sample_session 10 1 100)) as (Hown & Hother & _).
  - vm_compute. reflexivity.
  - discriminate.
  - split; [exact Hown|exact Hother].
Defined.

Lemma create_session_listing_witness :
  let w' := (main.create_session 10 100 sample_session_data
               (sample_user 1 "a@x.com") empty_world).2 in
  main.get_user_sessions (sample_user 1 "a@x.com") w'
  = (Return [sample_session 10 1 100], w')
  ∧ main.get_user_sessions (sample_user 2 "b@x.com") w' = (Return [], w').
Proof.
  intros w'.
  assert (main.create_session 10 100 sample_session_data
            (sample_user 1 "a@x.com") empty_world
          = (Return (sample_session 10 1 100), w')) as E.
  { vm_compute. reflexivity. }
  split.
  - destruct (create_session_listing 10 100 sample_session_data
                (sample_user 1 "a@x.com") (sample_user 1 "a@x.com") empty_world w'
                (sample_session 10 1 100) E) as (before & Hb & Ha).
    injection Hb as <-. exact Ha.
  - destruct (create_session_listing 10 100 sample_session_data
                (sample_user 1 "a@x.com") (sample_user 2 "b@x.com") empty_world w'
                (sample_session 10 1 100) E) as (before & Hb & Ha).
    injection Hb as <-. exact Ha.
Defined.

(** The session and the file that a guarded read returns. *)
Lemma get_found {K A : Type} `{EqDecision K} (doc_id : A → K) (P : A → Prop)
    (c : list A) (k : K) :
  unique_ids doc_id c →
  (∃ d, d ∈ c ∧ doc_id d = k ∧ P d) →
  ∃ d, get doc_id k c = Some d ∧ d ∈ c ∧ doc_id d = k ∧ P d.
Proof.
  intros Huniq (d & Hd & Hid & HP). unfold get.
  destruct (find_one (λ x, doc_id x = k) c) as [x|] eqn:E.
  - apply find_one_Some in E as [Hx Hidx]. exists x. split_and!; [done..|].
    rewrite (unique_ids_inj doc_id c x d); [done..|congruence].
  - rewrite find_one_None in E. by destruct (E d Hd).
Qed.

(** X11. With unique ids in the session collection, [get_session] either
    answers 404 or returns a stored session that has the requested id and
    belongs to the requester; it never changes the store. *)
Theorem get_session_owner_only
    (session_id : ObjectId) (current_user : UserDB.t) (w w' : World)
    (r : result (option UserSession.t)) :
  unique_ids UserSession.id (user_sessions w) →
  main.get_session session_id current_user w = (r, w') →
  w' = w
  ∧ (r = Raise (HTTPException 404 "Session not found")
     ∨ ∃ s, r = Return (Some s) ∧ s ∈ user_sessions w
            ∧ UserSession.id s = session_id
            ∧ UserSession.user_id s = UserDB.id current_user).
Proof.
  intros Huniq. unfold main.get_session, bind. cbv beta.
  destruct (user_owns_resource_session (UserDB.id current_user) session_id w)
    as (b & -> & Hb).
  destruct b; cbn [negb]; [|intros [= <- <-]; auto].
  destruct Hb as [Hb _]. destruct (Hb eq_refl) as [[_ Hex]|[[? _]|[? _]]]; [|done..].
  destruct (get_found UserSession.id
              (λ s, UserSession.user_id s = UserDB.id current_user)
              (user_sessions w) session_id Huniq) as (s & Eget & Hs & Hid & Hu).
  { destruct Hex as (s & ? & ? & ?). eauto. }
  unfold UserService.get_session_by_id, UserSession_get, gets. rewrite Eget.
  intros [= <- <-]. split; [done|]. right. eauto.
Qed.

(** X12. With unique ids in the file collection, [get_file] either
    answers 404 or describes a stored file that has the requested id and
    belongs to the requester; it never changes the store. *)
Theorem get_file_owner_only
    (storage_service : StorageService.t)
    (fid : ObjectId) (current_user : UserDB.t) (w w' : World)
    (r : result main.FileInfo) :
  unique_ids MediaFile.id (media_files w) →
  main.get_file storage_service fid current_user w = (r, w') →
  w' = w
  ∧ (r = Raise (HTTPException 404 "File not found")
     ∨ ∃ f info, r = Return info ∧ f ∈ media_files w
                 ∧ MediaFile.id f = fid
                 ∧ MediaFile.user_id f = UserDB.id current_user
                 ∧ main.file_id info = fid
                 ∧ main.info_file_type info = MediaFile.file_type f
                 ∧ main.info_file_size info = MediaFile.file_size f
                 ∧ main.info_created_at info = MediaFile.created_at f).
Proof.
  intros Huniq. unfold main.get_file, bind. cbv beta.
  destruct (user_owns_resource_media (UserDB.id current_user) fid w)
    as (b & -> & Hb).
  destruct b; cbn [negb]; [|intros [= <- <-]; auto].
  destruct Hb as [Hb _]. specialize (Hb eq_refl).
  destruct (MediaFile_get_owned _ fid w Hb Huniq) as (f & -> & Hf & Hid & Hu).
  cbv beta iota. unfold StorageService.get_file_url, ret.
  repeat case_decide; intros [= <- <-]; (split; [done|]); right;
    eexists f, _; split_and!; done.
Qed.

Lemma get_session_owner_only_witness :
  ∃ s, main.get_session 10 (sample_user 1 "a@x.com") world_one_session
       = (Return (Some s), world_one_session)
       ∧ UserSession.user_id s = 1%N.
Proof.
  destruct (main.get_session 10 (sample_user 1 "a@x.com") world_one_session)
    as [r w'] eqn:E.
  destruct (get_session_owner_only 10 (sample_user 1 "a@x.com") world_one_session
              w' r (NoDup_singleton _) E)
    as [-> [->|(s & -> & _ & _ & Hu)]].
  - vm_compute in E. discriminate.
  - exists s. split; [reflexivity|exact Hu].
Defined.

Lemma get_file_owner_only_witness :
  ∃ info, main.get_file local_storage 20 (sample_user 1 "a@x.com") world_one_file
          = (Return info, world_one_file)
          ∧ main.file_id info = 20%N.
Proof.
  destruct (main.get_file local_storage 20 (sample_user 1 "a@x.com") world_one_file)
    as [r w'] eqn:E.
  destruct (get_file_owner_only local_storage 20 (sample_user 1 "a@x.com")
              world_one_file w' r world_one_file_unique E)
    as [-> [->|(f & info & -> & _ & _ & _ & Hid & _)]].
  - vm_compute in E. discriminate.
  - exists info. split; [reflexivity|exact Hid].
Defined.

(** ** Deletion touches nothing else ([delete_file]) *)

Lemma storage_delete_file_frame (self : StorageService.t) path w :
  ∃ r w1, StorageService.delete_file self path w = (Return r, w1)
          ∧ users w1 = users w ∧ user_sessions w1 = user_sessions w
          ∧ media_files w1 = media_files w
          ∧ llm_conversations w1 = llm_conversations w
          ∧ user_preferences w1 = user_preferences w ∧ faults w1 = faults w
          ∧ blobs w1 ⊆ blobs w
          ∧ ∀ p, p ∈ blobs w → p ≠ path → p ∈ blobs w1.
Proof.
  unfold StorageService.delete_file, StorageService.os_remove,
    StorageService.s3_delete_object, try_except, bind, ret.
  destruct w as [us ss ms cs ps bs [f1 f2 f3 f4]].
  repeat case_decide; simpl; destruct f3; simpl; repeat case_decide; simpl;
    eexists _, _; (split; [reflexivity|]);
    simpl; split_and!; try done; set_solver.
Qed.

Lemma elem_of_delete_one_ne {K A : Type} `{EqDecision K} (doc_id : A → K)
    (k : K) (c : list A) (x : A) :
  x ∈ c → doc_id x ≠ k → x ∈ delete_one doc_id k c.
Proof.
  induction c as [|y c IH]; simpl; [done|].
  rewrite elem_of_cons. intros [->|Hx] Hne.
  - rewrite decide_False by done. left.
  - destruct (decide (doc_id y = k)); [done|]. right. auto.
Qed.

(** X13. Whatever its outcome, a delete request leaves users, sessions,
    conversations and preferences alone; it adds no file record and no
    blob, keeps every file record with another id, and keeps every blob
    that is not the path of a record with the requested id. *)
Theorem delete_file_isolation
    (storage_service : StorageService.t)
    (fid : ObjectId) (current_user : UserDB.t) (w : World) :
  let w' := (main.delete_file storage_service fid current_user w).2 in
  users w' = users w ∧ user_sessions w' = user_sessions w
  ∧ llm_conversations w' = llm_conversations w
  ∧ user_preferences w' = user_preferences w
  ∧ (∀ g, g ∈ media_files w' → g ∈ media_files w)
  ∧ (∀ g, g ∈ media_files w → MediaFile.id g ≠ fid → g ∈ media_files w')
  ∧ blobs w' ⊆ blobs w
  ∧ (∀ p, p ∈ blobs w →
       (∀ g, g ∈ media_files w → MediaFile.id g = fid → MediaFile.file_path g ≠ p) →
       p ∈ blobs w').
Proof.
  unfold main.delete_file, bind. cbv beta.
  destruct (user_owns_resource_media (UserDB.id current_user) fid w)
    as (b & -> & _).
  destruct b; cbn [negb]; [|by simpl].
  unfold MediaFile_get, get, gets.
  destruct (find_one _ (media_files w)) as [mf|] eqn:Eget; [|by simpl].
  apply find_one_Some in Eget as [Hmf Hid]. cbv beta iota.
  destruct (storage_delete_file_frame storage_service (MediaFile.file_path mf) w)
    as (r & w1 & -> & Hu & Hs & Hm & Hc & Hp & Hf & Hsub & Hkeep).
  cbv beta iota. unfold MediaFile_delete. rewrite Hf.
  destruct (media_delete_fails (faults w)); simpl.
  - rewrite Hm. split_and!; try done.
    intros p Hp' Hne. apply Hkeep; [done|]. intros E. by apply (Hne mf).
  - rewrite Hm. split_and!; try done.
    + intros g. apply elem_of_delete_one.
    + intros g Hg Hne. apply elem_of_delete_one_ne; [done|]. congruence.
    + intros p Hp' Hne. apply Hkeep; [done|]. intros E. by apply (Hne mf).
Qed.

(** ** Preferences ([create_user_preferences], [update_user_preferences]) *)







Lemma find_one_replace_found {K A : Type} `{EqDecision K} (doc_id : A → K)
    (P : A → Prop) `{∀ x, Decision (P x)} (c : list A) (p p' : A) :
  unique_ids doc_id c → find_one P c = Some p → P p' → doc_id p' = doc_id p →
  find_one P (replace_one doc_id p' c) = Some p'.
Proof.
  intros Huniq E HP Hid. induction c as [|d c IH]; [done|].
  rewrite find_one_cons in E. simpl.
  assert (unique_ids doc_id c) as Huniq'.
  { unfold unique_ids in *. csimpl in Huniq. by apply NoDup_cons in Huniq as [_ ?]. }
  destruct (decide (P d)) as [Hd|Hd].
  - injection E as ->. rewrite decide_True by done.
    rewrite find_one_cons. by rewrite decide_True.
  - pose proof (find_one_Some _ _ _ E) as [Hin HPp].
    destruct (decide (doc_id d = doc_id p')) as [Heq|Hne].
    + destruct Hd.
      rewrite (unique_ids_inj doc_id (d :: c) d p); [done|done|left|by right|congruence].
    + rewrite find_one_cons. rewrite decide_False by done. by apply IH.
Qed.

(** X14. When [create_user_preferences] returns on a store with at most
    one record per user, the user has a record, the store still has at
    most one per user, and creating again or reading the preferences
    afterwards returns without changing the store. *)
Theorem create_user_preferences_once
    (new_id : ObjectId) (now : datetime) (u : ObjectId) (w w' : World) :
  prefs_wf w →
  UserManager.create_user_preferences new_id now u w = (Return tt, w') →
  prefs_wf w'
  ∧ ∀ new_id' now',
      UserManager.create_user_preferences new_id' now' u w' = (Return tt, w')
      ∧ ∃ p, UserService.get_user_preferences new_id' now' u w' = (Return p, w')
             ∧ p ∈ user_preferences w'
             ∧ UserPreferences.user_id p = VOid u.
Proof.
  intros [Huniq Hinv].
  unfold UserManager.create_user_preferences, UserService.get_user_preferences,
    UserPreferences_find_one, UserPreferences_insert, try_except, bind, ret, raise,
    Exception.
  destruct (prefs_find_fails (faults w)) eqn:Hf; [done|].
  destruct (find_one _ (user_preferences w)) as [p|] eqn:E.
  - intros [= <-]. split; [done|]. intros new_id' now'. rewrite Hf, E.
    split; [done|]. exists p. apply find_one_Some in E as [? ?]. done.
  - destruct (prefs_insert_fails (faults w)); [done|].
    unfold insert. destruct (decide _) as [|Hfresh]; [done|]. intros [= <-].
    assert (find_one (λ q, UserPreferences.user_id q = VOid u)
              (user_preferences w ++ [UserPreferences.default new_id u now])
            = Some (UserPreferences.default new_id u now)) as E'.
    { apply find_one_app_fresh; [|done].
      by apply (find_one_None (λ q, UserPreferences.user_id q = VOid u)). }
    split.
    + split; simpl.
      * eapply unique_ids_insert; [done|]. unfold insert. by rewrite decide_False.
      * by eapply at_most_one_append.
    + intros new_id' now'. simpl. rewrite Hf, E'. split; [done|].
      eexists. split_and!; [done| |done]. apply elem_of_app. right. left.
Qed.

(** X16. When an update whose dictionary has neither the key [user_id]
    nor the key [id] returns a record, on a store with unique ids and at
    most one record per user, reading the user's preferences afterwards
    returns that record and changes nothing. *)
Theorem update_then_get_user_preferences
    (validate : string → value → option value)
    (new_id new_id' : ObjectId) (now now' : datetime) (u : ObjectId)
    (data : gmap string value) (w w' : World) (p' : UserPreferences.t) :
  prefs_wf w →
  data !! "user_id" = None → data !! "id" = None →
  UserService.update_user_preferences validate new_id now u data w = (Return p', w') →
  UserService.get_user_preferences new_id' now' u w' = (Return p', w').
Proof.
  intros [Huniq Hinv] Hku Hki.
  unfold UserService.update_user_preferences, UserService.get_user_preferences,
    UserPreferences_find_one, UserPreferences_insert, UserPreferences_save,
    bind, ret, raise, modify.
  destruct (prefs_find_fails (faults w)) eqn:Hf; [done|].
  destruct (find_one _ (user_preferences w)) as [p|] eqn:E.
  - intros [= <- <-]. simpl. rewrite Hf.
    set (p' := UserPreferences.setattr _ "updated_at" _).
    destruct (assign_all_identity p (map_to_list data)) as [Eu Ei].
    { intros [k v] Hkv%elem_of_map_to_list. simpl. split; congruence. }
    pose proof (find_one_Some _ _ _ E) as [Hin Hu].
    assert (UserPreferences.user_id p' = VOid u) as Hu'.
    { unfold p'. rewrite setattr_user_id by done. congruence. }
    assert (UserPreferences.id p' = UserPreferences.id p) as Hi'.
    { unfold p'. by rewrite setattr_id. }
    unfold save. rewrite decide_True by (apply Exists_exists; eauto).
    by rewrite (find_one_replace_found UserPreferences.id _ _ p p').
  - destruct (UserService.construct _ _ _ _ _) as [q|] eqn:Ec; [|done].
    destruct (prefs_insert_fails (faults w)); [done|].
    unfold insert. destruct (decide _); [done|]. intros [= <- <-]. simpl. rewrite Hf.
    rewrite find_one_app_fresh; [done| |by eapply construct_user_id].
    by apply (find_one_None (λ q, UserPreferences.user_id q = VOid u)).
Qed.

Lemma create_user_preferences_once_witness :
  let w' := (UserManager.create_user_preferences 12 50 3 world_two_prefs).2 in
  UserService.get_user_preferences 13 60 3 w'
  = (Return (UserPreferences.default 12 3 50), w')
  ∧ length (user_preferences w') = 3%nat.
Proof.
  intros w'.
  destruct (create_user_preferences_once 12 50 3 world_two_prefs w'
              world_two_prefs_wf) as [_ Hagain].
  - vm_compute. reflexivity.
  - destruct (Hagain 13%N 60) as (_ & p & E & _).
    split; [|reflexivity]. rewrite E. vm_compute in E. by injection E as <-.
Defined.

Lemma update_then_get_user_preferences_witness :
  let res := UserService.update_user_preferences accept_all 12 50 1
               {[ "preferred_duration" := VInt 45 ]} world_two_prefs in
  ∃ p', res.1 = Return p'
        ∧ UserService.get_user_preferences 13 60 1 res.2 = (Return p', res.2)
        ∧ UserPreferences.preferred_duration p' = VInt 45.
Proof.
  intros res.
  destruct res as [r w'] eqn:E. subst res.
  assert (∃ p', r = Return p' ∧ UserPreferences.preferred_duration p' = VInt 45)
    as (p' & -> & Hd).
  { vm_compute in E. injection E as <- _. eexists. split; reflexivity. }
  exists p'. split_and!; [reflexivity| |exact Hd].
  apply (update_then_get_user_preferences accept_all 12 13 50 60 1
           {[ "preferred_duration" := VInt 45 ]} world_two_prefs w' p'
           world_two_prefs_wf); [reflexivity|reflexivity|exact E].
Defined.

(** ** Accounts under OAuth sign-in ([oauth_callback]) *)

Lemma fmap_replace_one_same {K A B : Type} `{EqDecision K} (doc_id : A → K)
    (f : A → B) (c : list A) (p p' : A) :
  unique_ids doc_id c → p ∈ c → doc_id p' = doc_id p → f p' = f p →
  f <$> replace_one doc_id p' c = f <$> c.
Proof.
  intros Huniq Hin Hid Hf. induction c as [|d c IH]; [done|].
  simpl. destruct (decide (doc_id d = doc_id p')) as [E|Hne].
  - csimpl. f_equal. rewrite Hf. f_equal.
    apply (unique_ids_inj doc_id (d :: c)); [done|done|left|congruence].
  - csimpl. f_equal. apply IH.
    + unfold unique_ids in *. csimpl in Huniq. by apply NoDup_cons in Huniq as [_ ?].
    + apply elem_of_cons in Hin as [->|Hin]; [|done]. by destruct Hne.
Qed.

(** X17. On a store with unique user ids, no OAuth callback, whatever its
    outcome, removes a user, changes the id, the email or the password
    hash of a user, or reorders the users: the ids, emails and password
    hashes of the users before the call are those of the first users
    after it, and ids stay unique. *)
Theorem oauth_callback_keeps_accounts
    (new_user_id new_prefs_id : ObjectId) (now : datetime)
    (oauth_name access_token account_id account_email : string)
    (kwargs : gmap string string) (w : World) :
  unique_ids UserDB.id (users w) →
  let w' := (UserManager.oauth_callback new_user_id new_prefs_id now
               oauth_name access_token account_id account_email kwargs w).2 in
  unique_ids UserDB.id (users w')
  ∧ (UserDB.id <$> users w) `prefix_of` (UserDB.id <$> users w')
  ∧ (UserDB.email <$> users w) `prefix_of` (UserDB.email <$> users w')
  ∧ (UserDB.hashed_password <$> users w)
      `prefix_of` (UserDB.hashed_password <$> users w').
Proof.
  intros Huniq.
  destruct (decide (oauth_name = "google")) as [->|Hne]; cycle 1.
  { by rewrite oauth_callback_other_provider. }
  destruct (find_one (λ u, UserDB.google_id u = Some account_id) (users w))
    as [user|] eqn:E1.
  { by rewrite (oauth_callback_by_google_id _ _ _ _ _ _ _ user w E1). }
  destruct (find_one (λ u, UserDB.email u = account_email) (users w))
    as [user|] eqn:E2.
  { destruct (oauth_callback_by_email new_user_id new_prefs_id now access_token
                account_id account_email kwargs user w E1 E2) as (user' & Hl & ->).
    pose proof (find_one_Some _ _ _ E2) as [Hin _].
    destruct Hl as (Hid & Hmail & Hpw & _). simpl.
    rewrite !(fmap_replace_one_same UserDB.id _ (users w) user user') by done.
    split_and!; [|done..]. unfold unique_ids.
    by rewrite (fmap_replace_one_same UserDB.id _ (users w) user user'). }
  destruct (decide (Exists (λ u, UserDB.id u = new_user_id) (users w)))
    as [Hex|Hfresh].
  { rewrite oauth_callback_new_user_collision; [done..|]. by apply Exists_exists. }
  destruct (oauth_callback_new_user new_user_id new_prefs_id now access_token
              account_id account_email kwargs w E1 E2) as (r & w' & -> & Hu & _).
  { intros u Hu Hid. apply Hfresh. apply Exists_exists. eauto. }
  simpl. rewrite Hu, !fmap_app. split_and!; try by apply prefix_app_r.
  eapply (unique_ids_insert UserDB.id _ (users w)); [done|].
  unfold insert. rewrite decide_False; [done|]. exact Hfresh.
Qed.

Lemma oauth_callback_keeps_accounts_witness :
  let w' := (UserManager.oauth_callback 2 3 100 "google" "token" "sub-1" "ada@x.com"
               google_profile world_password_account).2 in
  (UserDB.hashed_password <$> users world_password_account)
    `prefix_of` (UserDB.hashed_password <$> users w')
  ∧ UserDB.hashed_password <$> users w' = ["$2b$12$abc"].
Proof.
  intros w'. split; [|vm_compute; reflexivity].
  apply (oauth_callback_keeps_accounts 2 3 100 "google" "token" "sub-1" "ada@x.com"
           google_profile world_password_account).
  apply NoDup_singleton.
Defined.

(** ** What an update and an upload leave alone *)

Lemma assign_all_id p items :
  (∀ kv, kv ∈ items → kv.1 ≠ "id") →
  UserPreferences.id (UserService.assign_all p items) = UserPreferences.id p.
Proof.
  unfold UserService.assign_all. revert p.
  induction items as [|[k v] items IH]; intros p Hk; simpl; [done|].
  rewrite IH by (intros kv Hkv; apply Hk; by right).
  destruct (UserPreferences.hasattr k); [|done].
  apply setattr_id. apply (Hk (k, v)). left.
Qed.

Lemma elem_of_replace_one_ne {K A : Type} `{EqDecision K} (doc_id : A → K)
    (d : A) (c : list A) (x : A) :
  x ∈ c → doc_id x ≠ doc_id d → x ∈ replace_one doc_id d c.
Proof.
  induction c as [|y c IH]; simpl; [done|].
  rewrite elem_of_cons. intros [->|Hx] Hne.
  - rewrite decide_False by done. left.
  - destruct (decide (doc_id y = doc_id d)); right; auto.
Qed.

(** X18. With unique ids in the preferences collection, an update whose
    dictionary has no key [id] leaves the record of every other user in
    the store, unchanged, whatever the outcome of the call. *)
Theorem update_user_preferences_isolation
    (validate : string → value → option value)
    (new_id : ObjectId) (now : datetime) (u : ObjectId)
    (data : gmap string value) (w : World) (q : UserPreferences.t) :
  unique_ids UserPreferences.id (user_preferences w) →
  data !! "id" = None →
  q ∈ user_preferences w →
  UserPreferences.user_id q ≠ VOid u →
  q ∈ user_preferences
        (UserService.update_user_preferences validate new_id now u data w).2.
Proof.
  intros Huniq Hki Hq Hother.
  unfold UserService.update_user_preferences, UserPreferences_find_one,
    UserPreferences_insert, UserPreferences_save, bind, ret, raise, modify.
  destruct (prefs_find_fails (faults w)); [done|].
  destruct (find_one _ (user_preferences w)) as [p|] eqn:E.
  - simpl. apply find_one_Some in E as [Hp Hu].
    set (p' := UserPreferences.setattr _ "updated_at" _).
    assert (UserPreferences.id p' = UserPreferences.id p) as Hid.
    { unfold p'. rewrite setattr_id by done. apply assign_all_id.
      intros [k v] Hkv%elem_of_map_to_list. simpl. congruence. }
    unfold save. rewrite decide_True by (apply Exists_exists; eauto).
    apply elem_of_replace_one_ne; [done|]. rewrite Hid. intros Heq.
    apply Hother. rewrite <- Hu. f_equal.
    by apply (unique_ids_inj UserPreferences.id (user_preferences w)).
  - destruct (UserService.construct _ _ _ _ _); [|done].
    destruct (prefs_insert_fails (faults w)); [done|].
    unfold insert. destruct (decide _); [done|]. simpl.
    apply elem_of_app. by left.
Qed.

Lemma update_user_preferences_isolation_witness :
  UserPreferences.default 11 2 0
  ∈ user_preferences
      (UserService.update_user_preferences accept_all 12 50 1
         {[ "user_id" := VOid 2; "preferred_duration" := VInt 5 ]}
         world_two_prefs).2.
Proof.
  apply (update_user_preferences_isolation accept_all 12 50 1
           {[ "user_id" := VOid 2; "preferred_duration" := VInt 5 ]}
           world_two_prefs (UserPreferences.default 11 2 0)).
  - apply world_two_prefs_wf.
  - reflexivity.
  - right. left.
  - discriminate.
Defined.

Section UploadFrame.
Variable str_oid : ObjectId → string.
Variable parse_oid : string → option ObjectId.
Variable path_suffix : string → string.
Variable storage_service : StorageService.t.

(** X19. Whatever its outcome, an upload removes nothing: users,
    sessions, conversations and preferences are unchanged, the file
    records before the call are the first file records after it, and every
    blob that was stored is still stored. *)
Theorem upload_file_keeps_store
    (new_id : ObjectId) (now : datetime) (file_id : string)
    (file : UploadFile.t) (session_id : option string)
    (current_user : UserDB.t) (w : World) :
  let w' := (Upload.upload_file str_oid parse_oid path_suffix storage_service
               new_id now file_id file session_id current_user w).2 in
  users w' = users w ∧ user_sessions w' = user_sessions w
  ∧ llm_conversations w' = llm_conversations w
  ∧ user_preferences w' = user_preferences w
  ∧ media_files w `prefix_of` media_files w'
  ∧ blobs w ⊆ blobs w'.
Proof.
  unfold Upload.upload_file, Upload.upload_body, Upload.save_file,
    Upload._save_local, Upload._save_s3, Upload.MediaFile_insert,
    ubind, uret, uraise, lift, modify, insert.
  destruct (Upload.validate_file storage_service file); cbn [negb]; [|by simpl].
  repeat case_decide; simpl; try done;
    destruct session_id as [sid|]; try destruct (decide (sid = ""));
    try destruct (parse_oid sid); simpl;
    destruct (UploadFile.content_type file); simpl;
    try destruct (decide (Exists _ (media_files w))); simpl;
    split_and!; try done; try (by apply prefix_app_r); set_solver.
Qed.
End UploadFrame.
